(** * VolatiSense front end ([static/script.js]) and pricing core

    A shallow embedding of the browser script that drives the option
    pricing page: the DOM it reads and writes, its event handlers (split at
    their [await] points), and the requests it posts to the pricing core.
    The second part of the file models the server-side core (parameter
    validation and the Black-Scholes solver), which the script only talks
    to through JSON. *)

From Stdlib Require Import Ascii Reals Lra QArith Qreals.
From stdpp Require Import base option list strings gmap pretty.

Close Scope Q_scope.
Close Scope R_scope.

Set Default Proof Using "Type".

(** ** The JavaScript runtime the script relies on *)

(** Numbers are IEEE doubles in the browser.  The script never computes
    with them: it writes the literal [0.0], tests truthiness and formats
    with [toFixed] and string conversion.  Of strings it calls
    [toUpperCase], whose case mapping is Unicode's (and may lengthen a
    string); all the script relies on is that the empty string is the one
    string it maps to the empty string.  These operations are the interface
    of the runtime. *)
Class JSNumber (Num : Type) := {
  num_zero : Num;                       (* the literal 0.0 *)
  num_falsy : Num → bool;               (* +0, -0 and NaN *)
  num_toString : Num → string;          (* Number::toString *)
  num_toFixed : Num → nat → string;     (* Number.prototype.toFixed *)
  toUpperCase : string → string;        (* String.prototype.toUpperCase *)
  toUpperCase_empty : ∀ str, toUpperCase str = "" ↔ str = ""
}.

(** Exceptions the handlers can observe. *)
Inductive Exn :=
  | TypeError       (* property access on null/undefined, call of a non-function *)
  | SyntaxError     (* response.json() on a body that is not JSON *)
  | NetworkError    (* fetch() rejected *)
  | ChartError.     (* thrown by the charting library *)

Section Script.
Context {Num : Type} `{!JSNumber Num}.

(** JavaScript values that cross the script: parsed JSON, property reads
    (which add [undefined]) and the payload objects. Object fields keep
    their insertion order; a read takes the first binding of a key. *)
#[warnings="-register-all"]
Inductive Val :=
  | VUndef
  | VNull
  | VBool (b : bool)
  | VNum (n : Num)
  | VStr (s : string)
  | VArr (items : list Val)
  | VObj (fields : list (string * Val)).

Fixpoint assoc (k : string) (fields : list (string * Val)) : option Val :=
  match fields with
  | [] => None
  | (k', v) :: rest => if String.eqb k k' then Some v else assoc k rest
  end.

(** [v.k] for the property names the script reads (none of them is a
    built-in property of a string, number, boolean or array). *)
Definition get_prop (v : Val) (k : string) : Exn + Val :=
  match v with
  | VUndef | VNull => inl TypeError
  | VObj fields => inr (default VUndef (assoc k fields))
  | _ => inr VUndef
  end.

(** [v.toFixed(d)] *)
Definition toFixed (v : Val) (d : nat) : Exn + string :=
  match v with
  | VNum n => inr (num_toFixed n d)
  | _ => inl TypeError
  end.

Definition truthy (v : Val) : bool :=
  match v with
  | VUndef | VNull => false
  | VBool b => b
  | VNum n => negb (num_falsy n)
  | VStr s => negb (String.eqb s "")
  | VArr _ | VObj _ => true
  end.

(** [v === s] for a string literal [s] *)
Definition strict_eq_string (v : Val) (s : string) : bool :=
  match v with VStr s' => String.eqb s' s | _ => false end.

(** [a || b] *)
Definition or_else (a b : Val) : Val := if truthy a then a else b.

Fixpoint join (sep : string) (l : list string) : string :=
  match l with
  | [] => ""
  | [x] => x
  | x :: rest => x +:+ sep +:+ join sep rest
  end.

(** ToString, as used by template literals and by the [value] setter. *)
Fixpoint to_string (v : Val) : string :=
  match v with
  | VUndef => "undefined"
  | VNull => "null"
  | VBool true => "true"
  | VBool false => "false"
  | VNum n => num_toString n
  | VStr s => s
  | VArr items =>
      join "," (map (λ x, match x with
                          | VUndef | VNull => ""
                          | _ => to_string x
                          end) items)
  | VObj _ => "[object Object]"
  end.

(** The [value] setter of an input: null becomes the empty string. *)
Definition to_value_string (v : Val) : string :=
  match v with VNull => "" | _ => to_string v end.

(** ** The document *)

(** An element, with the properties the script touches.  [value] is the
    form-control value, [dataset_value] the [data-value] attribute. *)
Record Element := mkElement {
  value : string;
  textContent : string;
  classList : gset string;
  disabled : bool;
  dataset_value : option string
}.

Definition with_value (v : string) (e : Element) : Element :=
  mkElement v (textContent e) (classList e) (disabled e) (dataset_value e).
Definition with_textContent (t : string) (e : Element) : Element :=
  mkElement (value e) t (classList e) (disabled e) (dataset_value e).
Definition with_disabled (b : bool) (e : Element) : Element :=
  mkElement (value e) (textContent e) (classList e) b (dataset_value e).
Definition with_classList (c : gset string) (e : Element) : Element :=
  mkElement (value e) (textContent e) c (disabled e) (dataset_value e).

Definition classList_add (c : string) (e : Element) : Element :=
  with_classList ({[c]} ∪ classList e) e.
Definition classList_remove (c : string) (e : Element) : Element :=
  with_classList (classList e ∖ {[c]}) e.
Definition classList_toggle (c : string) (e : Element) : Element :=
  if decide (c ∈ classList e) then classList_remove c e else classList_add c e.

(** A chart drawn by the charting library: its labels and, per dataset,
    the label and the data; [destroyed] after [destroy()]. *)
Record Chart := mkChart {
  chart_title : string;
  chart_labels : Val;
  chart_datasets : list (string * Val);
  destroyed : bool
}.

Definition destroy (c : Chart) : Chart :=
  mkChart (chart_title c) (chart_labels c) (chart_datasets c) true.

(** A request handed to [fetch]. *)
Record Request := mkRequest {
  url : string;
  http_method : string;
  headers : list (string * string);
  body : Val                      (* the object given to JSON.stringify *)
}.

(** An async handler suspended at its [await], with the locals it
    captured. *)
Inductive Pending :=
  | PFetch (ticker : string)
  | PSimulate
  | PConvergence.

(** The state of the page: elements by id, the two node lists the script
    obtains by class, the closure variables of the DOMContentLoaded
    callback, what the user has been shown, and the suspended handlers. *)
Record State := mkState {
  doc : gmap string Element;
  customOptions : list Element;       (* querySelectorAll('.custom-option') *)
  triggerLabel : option Element;      (* methodSelectTrigger.querySelector('.custom-select__trigger') *)
  currencyLabels : list Element;      (* querySelectorAll('.currency-label') *)
  currentCurrency : Val;
  chartInstance : option Chart;
  convergenceChartInstance : option Chart;
  alerts : list Val;                  (* arguments of alert(), oldest first *)
  console : list Exn;                 (* arguments of console.error() *)
  pending : list Pending
}.

Definition set_doc (d : gmap string Element) (s : State) : State :=
  mkState d (customOptions s) (triggerLabel s) (currencyLabels s)
    (currentCurrency s) (chartInstance s) (convergenceChartInstance s)
    (alerts s) (console s) (pending s).
Definition set_customOptions (l : list Element) (s : State) : State :=
  mkState (doc s) l (triggerLabel s) (currencyLabels s)
    (currentCurrency s) (chartInstance s) (convergenceChartInstance s)
    (alerts s) (console s) (pending s).
Definition set_triggerLabel (l : option Element) (s : State) : State :=
  mkState (doc s) (customOptions s) l (currencyLabels s)
    (currentCurrency s) (chartInstance s) (convergenceChartInstance s)
    (alerts s) (console s) (pending s).
Definition set_currencyLabels (l : list Element) (s : State) : State :=
  mkState (doc s) (customOptions s) (triggerLabel s) l
    (currentCurrency s) (chartInstance s) (convergenceChartInstance s)
    (alerts s) (console s) (pending s).
Definition set_currentCurrency (v : Val) (s : State) : State :=
  mkState (doc s) (customOptions s) (triggerLabel s) (currencyLabels s)
    v (chartInstance s) (convergenceChartInstance s)
    (alerts s) (console s) (pending s).
Definition set_chartInstance (c : option Chart) (s : State) : State :=
  mkState (doc s) (customOptions s) (triggerLabel s) (currencyLabels s)
    (currentCurrency s) c (convergenceChartInstance s)
    (alerts s) (console s) (pending s).
Definition set_convergenceChartInstance (c : option Chart) (s : State) : State :=
  mkState (doc s) (customOptions s) (triggerLabel s) (currencyLabels s)
    (currentCurrency s) (chartInstance s) c
    (alerts s) (console s) (pending s).
Definition set_alerts (l : list Val) (s : State) : State :=
  mkState (doc s) (customOptions s) (triggerLabel s) (currencyLabels s)
    (currentCurrency s) (chartInstance s) (convergenceChartInstance s)
    l (console s) (pending s).
Definition set_console (l : list Exn) (s : State) : State :=
  mkState (doc s) (customOptions s) (triggerLabel s) (currencyLabels s)
    (currentCurrency s) (chartInstance s) (convergenceChartInstance s)
    (alerts s) l (pending s).
Definition set_pending (l : list Pending) (s : State) : State :=
  mkState (doc s) (customOptions s) (triggerLabel s) (currencyLabels s)
    (currentCurrency s) (chartInstance s) (convergenceChartInstance s)
    (alerts s) (console s) l.

(** ** Computations: state and exceptions

    A statement sequence runs against the page state and either completes
    or throws; what it wrote before throwing stays written. *)
Definition M (A : Type) : Type := State → (Exn + A) * State.

Definition ret {A} (a : A) : M A := λ s, (inr a, s).
Definition throw {A} (e : Exn) : M A := λ s, (inl e, s).
Definition bind {A B} (m : M A) (k : A → M B) : M B :=
  λ s, match m s with
       | (inr a, s') => k a s'
       | (inl e, s') => (inl e, s')
       end.

Notation "'let!' x ':=' m 'in' k" := (bind m (λ x, k))
  (at level 10, x name, m at level 100, k at level 200,
   format "'[v' 'let!'  x  ':='  m  'in' '/' k ']'").
Notation "m '>>' k" := (bind m (λ _, k))
  (at level 100, k at level 200, right associativity,
   format "'[v' m  '>>' '/' k ']'").

(** [try { body } catch (e) { handler } finally { final }] *)
Definition try_catch_finally (body : M unit) (handler : Exn → M unit)
    (final : M unit) : M unit :=
  λ s, match body s with
       | (inr _, s1) => final s1
       | (inl e, s1) =>
           match handler e s1 with
           | (inr _, s2) => final s2
           | (inl e', s2) =>
               match final s2 with
               | (inr _, s3) => (inl e', s3)
               | thrown => thrown
               end
           end
       end.

(** [try { body } catch (e) { handler }] *)
Definition try_catch (body : M unit) (handler : Exn → M unit) : M unit :=
  λ s, match body s with
       | (inl e, s1) => handler e s1
       | done => done
       end.

Definition lift {A} (r : Exn + A) : M A :=
  match r with inl e => throw e | inr a => ret a end.

Definition when (b : bool) (m : M unit) : M unit := if b then m else ret tt.

(** *** Primitive operations on the page *)

(** [if (el)] for [el = document.getElementById(id)] *)
Definition present (id : string) : M bool :=
  λ s, (inr (bool_decide (is_Some (doc s !! id))), s).

(** Read a property of the element [id]; TypeError when it is null. *)
Definition read {A} (id : string) (f : Element → A) : M A :=
  λ s, match doc s !! id with
       | Some e => (inr (f e), s)
       | None => (inl TypeError, s)
       end.

(** Write to the element [id]; TypeError when it is null. *)
Definition update (id : string) (f : Element → Element) : M unit :=
  λ s, match doc s !! id with
       | Some e => (inr tt, set_doc (<[id := f e]> (doc s)) s)
       | None => (inl TypeError, s)
       end.

Definition alert (v : Val) : M unit :=
  λ s, (inr tt, set_alerts (alerts s ++ [v]) s).

Definition console_error (e : Exn) : M unit :=
  λ s, (inr tt, set_console (console s ++ [e]) s).

(** Node lists obtained by class: [this] is the [i]-th custom option. *)
Definition read_option {A} (i : nat) (f : Element → A) : M A :=
  λ s, match customOptions s !! i with
       | Some e => (inr (f e), s)
       | None => (inl TypeError, s)
       end.

Definition update_option (i : nat) (f : Element → Element) : M unit :=
  λ s, match customOptions s !! i with
       | Some e => (inr tt, set_customOptions (<[i := f e]> (customOptions s)) s)
       | None => (inl TypeError, s)
       end.

Definition update_all_options (f : Element → Element) : M unit :=
  λ s, (inr tt, set_customOptions (f <$> customOptions s) s).

Definition update_all_currencyLabels (f : Element → Element) : M unit :=
  λ s, (inr tt, set_currencyLabels (f <$> currencyLabels s) s).

(** [methodSelectTrigger.querySelector('.custom-select__trigger').textContent = t] *)
Definition update_triggerLabel (f : Element → Element) : M unit :=
  λ s, match doc s !! "methodSelectTrigger", triggerLabel s with
       | Some _, Some l => (inr tt, set_triggerLabel (Some (f l)) s)
       | _, _ => (inl TypeError, s)
       end.

Definition get_currentCurrency : M Val := λ s, (inr (currentCurrency s), s).
Definition put_currentCurrency (v : Val) : M unit :=
  λ s, (inr tt, set_currentCurrency v s).

(** Suspend the running async handler at its [await]. *)
Definition suspend (p : Pending) : M unit :=
  λ s, (inr tt, set_pending (pending s ++ [p]) s).

(** What the awaited [fetch(...)] and [response.json()] deliver when the
    handler is resumed. *)
Inductive Outcome :=
  | NetworkFailure                      (* fetch() rejects *)
  | BadBody (ok : bool)                 (* response.json() rejects *)
  | Reply (ok : bool) (data : Val).     (* response.ok and the parsed body *)

Definition await (o : Outcome) : M (bool * Val) :=
  match o with
  | NetworkFailure => throw NetworkError
  | BadBody _ => throw SyntaxError
  | Reply ok data => ret (ok, data)
  end.

Definition json_headers : list (string * string) :=
  [("Content-Type", "application/json")].

(** ** The script *)

(** Lines 27-31: the dropdown trigger. *)
Definition methodSelectTrigger_click : M unit :=
  update "methodSelectTrigger" (classList_toggle "open").

(** [el.dataset.value]: the attribute, or undefined without one. *)
Definition data_value_of (e : Element) : Val :=
  match dataset_value e with
  | Some v => VStr v
  | None => VUndef
  end.

(** Lines 33-56: click on the [i]-th custom option. *)
Definition customOption_click (i : nat) : M unit :=
  update_all_options (classList_remove "selected") >>
  update_option i (classList_add "selected") >>
  let! text := read_option i textContent in
  update_triggerLabel (with_textContent text) >>
  let! value := read_option i data_value_of in
  update "method" (with_value (to_value_string value)) >>
  let! has_convergenceBtn := present "convergenceBtn" in
  when has_convergenceBtn
    (if strict_eq_string value "antithetic"
     then update "convergenceBtn" (classList_add "hidden")
     else update "convergenceBtn" (classList_remove "hidden")) >>
  update "methodSelectTrigger" (classList_remove "open").

(** Lines 58-62: a click anywhere bubbles to the document; [inside] tells
    whether its target lies in the dropdown trigger. *)
Definition document_click (inside : bool) : M unit :=
  let! has_trigger := present "methodSelectTrigger" in
  when (has_trigger && negb inside)
    (update "methodSelectTrigger" (classList_remove "open")).

(** Lines 65-77: the fetch-data handler up to its first [await]. *)
Definition fetchBtn_click : M (option Request) :=
  let! raw := read "tickerInput" value in
  let ticker := toUpperCase raw in
  if String.eqb ticker "" then ret None else
  update "fetchBtn" (with_textContent "Loading...") >>
  update "fetchBtn" (with_disabled true) >>
  suspend (PFetch ticker) >>
  ret (Some (mkRequest "/api/get-stock-data" "POST" json_headers
               (VObj [("ticker", VStr ticker)]))).

(** Lines 79-105: the rest of the fetch-data handler. *)
Definition fetchBtn_resume (ticker : string) (o : Outcome) : M unit :=
  try_catch_finally
    (let! response := await o in
     let data := response.2 in
     if response.1 then
       let! current_price := lift (get_prop data "current_price") in
       let! price2 := lift (toFixed current_price 2) in
       update "S0" (with_value price2) >>
       let! volatility := lift (get_prop data "volatility") in
       let! vol4 := lift (toFixed volatility 4) in
       update "sigma" (with_value vol4) >>
       let! risk_free_rate := lift (get_prop data "risk_free_rate") in
       update "r" (with_value (to_value_string risk_free_rate)) >>
       let! current_price' := lift (get_prop data "current_price") in
       let! strike2 := lift (toFixed current_price' 2) in
       update "K" (with_value strike2) >>
       let! has_q := present "q" in
       when has_q (update "q" (with_value "0.0")) >>
       let! currency := lift (get_prop data "currency") in
       let currencySymbol := or_else currency (VStr "$") in
       put_currentCurrency currencySymbol >>
       update_all_currencyLabels
         (with_textContent ("(" +:+ to_string currencySymbol +:+ ")")) >>
       let! has_volSource := present "volSource" in
       when has_volSource
         (update "volSource"
            (with_textContent ("Historical Volatility (1Y) for " +:+ ticker)))
     else
       let! error := lift (get_prop data "error") in
       alert (or_else error (VStr "Error fetching data")))
    (λ e, console_error e >> alert (VStr "Failed to connect to server"))
    (update "fetchBtn" (with_textContent "Fetch Data") >>
     update "fetchBtn" (with_disabled false)).

(** The [q] entry of both payloads: [q ? q.value : 0.0]. *)
Definition q_or_default : M Val :=
  let! has_q := present "q" in
  if has_q then (let! v := read "q" value in ret (VStr v))
  else ret (VNum num_zero).

(** The [method] entry: [methodSelect ? methodSelect.value : 'standard']. *)
Definition method_or_default : M Val :=
  let! has_method := present "method" in
  if has_method then (let! v := read "method" value in ret (VStr v))
  else ret (VStr "standard").

(** Lines 109-131: the submit handler up to its first [await]. *)
Definition paramsForm_submit : M Request :=
  update "simulateBtn" (with_textContent "Running Simulation...") >>
  update "simulateBtn" (with_disabled true) >>
  let! vS0 := read "S0" value in
  let! vK := read "K" value in
  let! vT := read "T" value in
  let! vr := read "r" value in
  let! vsigma := read "sigma" value in
  let! vq := q_or_default in
  let! vsteps := read "steps" value in
  let! vmethod := method_or_default in
  let payload :=
    VObj [("S0", VStr vS0); ("K", VStr vK); ("T", VStr vT); ("r", VStr vr);
          ("sigma", VStr vsigma); ("q", vq); ("steps", VStr vsteps);
          ("method", vmethod)] in
  suspend PSimulate >>
  ret (mkRequest "/api/simulate" "POST" json_headers payload).

(** Lines 210-257.  [lib_ok] says whether [new Chart(...)] returns. *)
Definition renderChart (lib_ok : bool) (mcData : Val) : M unit :=
  read "simulationChart" (λ _, tt) >>
  (λ s, (inr tt, set_chartInstance (destroy <$> chartInstance s) s)) >>
  let! labels := lift (get_prop mcData "steps") in
  let! paths := lift (get_prop mcData "paths") in
  let! datasets :=
    lift (match paths with
          | VArr items =>
              inr (imap (λ index path, ("Path " +:+ pretty (index + 1), path))
                     items)
          | _ => inl TypeError
          end) in
  try_catch
    (if lib_ok
     then (λ s, (inr tt,
                 set_chartInstance
                   (Some (mkChart "Monte Carlo Sample Paths (First 20)"
                            labels datasets false)) s))
     else throw ChartError)
    console_error.

(** [format], line 195 *)
Definition format (num : Val) : M string :=
  let! currency := get_currentCurrency in
  let! digits := lift (toFixed num 4) in
  ret (to_string currency +:+ digits).

Definition stderr_text (num : Val) : M string :=
  let! digits := lift (toFixed num 4) in
  ret ("±" +:+ digits).

(** Lines 189-208 *)
Definition displayResults (lib_ok : bool) (data : Val) : M unit :=
  update "results" (classList_remove "hidden") >>
  let! has_convSection := present "convergenceSection" in
  when has_convSection
    (update "convergenceSection" (classList_add "hidden")) >>
  let! bs := lift (get_prop data "bs") in
  let! bs_call := lift (get_prop bs "call_price") in
  let! t1 := format bs_call in
  update "bsCall" (with_textContent t1) >>
  let! bs_put := lift (get_prop bs "put_price") in
  let! t2 := format bs_put in
  update "bsPut" (with_textContent t2) >>
  let! mc := lift (get_prop data "mc") in
  let! mc_call := lift (get_prop mc "call_price") in
  let! t3 := format mc_call in
  update "mcCall" (with_textContent t3) >>
  let! mc_put := lift (get_prop mc "put_price") in
  let! t4 := format mc_put in
  update "mcPut" (with_textContent t4) >>
  let! call_stderr := lift (get_prop mc "call_stderr") in
  let! t5 := stderr_text call_stderr in
  update "mcCallErr" (with_textContent t5) >>
  let! put_stderr := lift (get_prop mc "put_stderr") in
  let! t6 := stderr_text put_stderr in
  update "mcPutErr" (with_textContent t6) >>
  renderChart lib_ok mc.

(** Lines 133-145: the rest of the submit handler. *)
Definition paramsForm_resume (o : Outcome) (lib_ok : bool) : M unit :=
  try_catch_finally
    (let! response := await o in
     let data := response.2 in
     if response.1 then displayResults lib_ok data
     else (let! error := lift (get_prop data "error") in alert error))
    console_error
    (update "simulateBtn" (with_textContent "Run Simulation") >>
     update "simulateBtn" (with_disabled false)).

(** Lines 259-311 *)
Definition renderConvergenceChart (lib_ok : bool) (data : Val) : M unit :=
  read "convergenceChart" (λ _, tt) >>
  (λ s, (inr tt,
         set_convergenceChartInstance
           (destroy <$> convergenceChartInstance s) s)) >>
  let! x := lift (get_prop data "x") in
  let! y := lift (get_prop data "y") in
  let! bs_line := lift (get_prop data "bs_line") in
  if lib_ok
  then (λ s, (inr tt,
              set_convergenceChartInstance
                (Some (mkChart "Convergence Check: Price vs Simulations" x
                         [("Monte Carlo Estimate", y);
                          ("Black-Scholes Price", bs_line)] false)) s))
  else throw ChartError.

(** Lines 150-169: the convergence handler up to its first [await]. *)
Definition convergenceBtn_click : M Request :=
  update "convergenceBtn" (with_textContent "Analyzing...") >>
  update "convergenceBtn" (with_disabled true) >>
  let! vS0 := read "S0" value in
  let! vK := read "K" value in
  let! vT := read "T" value in
  let! vr := read "r" value in
  let! vsigma := read "sigma" value in
  let! vq := q_or_default in
  let! vmethod := method_or_default in
  let payload :=
    VObj [("S0", VStr vS0); ("K", VStr vK); ("T", VStr vT); ("r", VStr vr);
          ("sigma", VStr vsigma); ("q", vq); ("method", vmethod)] in
  suspend PConvergence >>
  ret (mkRequest "/api/convergence" "POST" json_headers payload).

(** Lines 171-185: the rest of the convergence handler. *)
Definition convergenceBtn_resume (o : Outcome) (lib_ok : bool) : M unit :=
  try_catch_finally
    (let! response := await o in
     let data := response.2 in
     if response.1 then
       let! has_section := present "convergenceSection" in
       when has_section
         (update "convergenceSection" (classList_remove "hidden")) >>
       renderConvergenceChart lib_ok data
     else (let! error := lift (get_prop data "error") in alert error))
    console_error
    (update "convergenceBtn" (with_textContent "Analyze Convergence") >>
     update "convergenceBtn" (with_disabled false)).


(** ** The page as a transition system *)

(** What can happen to the page.  A click that bubbles to the document is
    the target's event followed by [EvDocumentClick]; the custom options
    stop propagation. *)
Inductive Event :=
  | EvInput (id text : string)          (* the user edits a form field *)
  | EvTriggerClick
  | EvDocumentClick (inside : bool)
  | EvOptionClick (i : nat)
  | EvFetchClick
  | EvSubmit
  | EvConvergenceClick
  | EvSettle (i : nat) (o : Outcome) (lib_ok : bool).
                                        (* the [i]-th suspended handler resumes *)

(** The fields the user can type into; the method input is hidden and is
    only written by the custom dropdown. *)
Definition editable : list string :=
  ["tickerInput"; "S0"; "K"; "T"; "r"; "sigma"; "q"; "steps"].

Definition exists_el (id : string) (s : State) : bool :=
  bool_decide (is_Some (doc s !! id)).

(** A button takes clicks unless it is disabled. *)
Definition clickable (id : string) (s : State) : bool :=
  match doc s !! id with
  | Some e => negb (disabled e)
  | None => false
  end.

(** An element carrying the class [hidden] is not displayed. *)
Definition shown (id : string) (s : State) : bool :=
  match doc s !! id with
  | Some e => bool_decide ("hidden" ∉ classList e)
  | None => false
  end.

(** Listeners are attached in script order; a null [fetchBtn] or
    [paramsForm] throws at lines 65 and 109 and leaves the later listeners
    unattached. *)
Definition enabled (ev : Event) (s : State) : bool :=
  match ev with
  | EvInput id _ => bool_decide (id ∈ editable) && exists_el id s
  | EvTriggerClick => exists_el "methodSelectTrigger" s
  | EvDocumentClick _ => true
  | EvOptionClick i => bool_decide (is_Some (customOptions s !! i))
  | EvFetchClick => clickable "fetchBtn" s
  | EvSubmit => exists_el "fetchBtn" s && exists_el "paramsForm" s
  | EvConvergenceClick =>
      exists_el "fetchBtn" s && exists_el "paramsForm" s
      && clickable "convergenceBtn" s && shown "convergenceBtn" s
  | EvSettle i _ _ => bool_decide (is_Some (pending s !! i))
  end.

Definition resume (p : Pending) (o : Outcome) (lib_ok : bool) : M unit :=
  match p with
  | PFetch ticker => fetchBtn_resume ticker o
  | PSimulate => paramsForm_resume o lib_ok
  | PConvergence => convergenceBtn_resume o lib_ok
  end.

Definition handler (ev : Event) : M unit :=
  match ev with
  | EvInput id text => update id (with_value text)
  | EvTriggerClick => methodSelectTrigger_click
  | EvDocumentClick inside => document_click inside
  | EvOptionClick i => customOption_click i
  | EvFetchClick => fetchBtn_click >> ret tt
  | EvSubmit => paramsForm_submit >> ret tt
  | EvConvergenceClick => convergenceBtn_click >> ret tt
  | EvSettle i o lib_ok =>
      λ s, match pending s !! i with
           | Some p => resume p o lib_ok (set_pending (delete i (pending s)) s)
           | None => (inr tt, s)
           end
  end.

(** One event: the handler runs to its end or to its next [await]; an
    exception that escapes it is reported by the browser and what was
    written stays. *)
Definition step (ev : Event) (s : State) : option State :=
  if enabled ev s then Some (handler ev s).2 else None.

Inductive reachable (init : State) : State → Prop :=
  | reachable_init : reachable init init
  | reachable_step s ev s' :
      reachable init s → step ev s = Some s' → reachable init s'.

(** The page right after the DOMContentLoaded callback has run. *)
Definition loaded (s : State) : Prop :=
  pending s = [] ∧ alerts s = [] ∧ console s = []
  ∧ chartInstance s = None ∧ convergenceChartInstance s = None.

Fixpoint run (evs : list Event) (s : State) : option State :=
  match evs with
  | [] => Some s
  | ev :: rest => match step ev s with Some s' => run rest s' | None => None end
  end.

(** ** Properties of runs *)

(** A computation leaves an observation of the page unchanged, whether it
    completes or throws. *)
Definition stable {A X} (view : State → X) (m : M A) : Prop :=
  ∀ s, view (m s).2 = view s.

(** A property of an element, if the element exists. *)
Definition element_view {X} (id : string) (f : Element → X) (s : State)
    : option X :=
  f <$> doc s !! id.

(** The three variance-reduction methods of the request contract. *)
Definition methods : list string :=
  ["standard"; "antithetic"; "control_variate"].

(** The value the script sends as [method]. *)
Definition selected_method (s : State) : string :=
  match doc s !! "method" with
  | Some m => value m
  | None => "standard"
  end.

(** While antithetic is selected the convergence button carries [hidden]. *)
Definition antithetic_hidden (s : State) : Prop :=
  ∀ m b, doc s !! "method" = Some m → value m = "antithetic" →
         doc s !! "convergenceBtn" = Some b → "hidden" ∈ classList b.

(** The page offers the contract's methods only. *)
Definition options_known (s : State) : Prop :=
  ∀ o, o ∈ customOptions s → ∃ v, dataset_value o = Some v ∧ v ∈ methods.

(** The button [id] is enabled and shows [label]. *)
Definition idle (id label : string) (s : State) : Prop :=
  ∃ b, doc s !! id = Some b ∧ textContent b = label ∧ disabled b = false.

(** The elements [displayResults] writes a price or standard error to. *)
Definition result_fields : list string :=
  ["bsCall"; "bsPut"; "mcCall"; "mcPut"; "mcCallErr"; "mcPutErr"].

(** What a pricing result changes on the page: the result fields, the
    visibility of the two result sections, and the charts. *)
Definition results_view (s : State)
    : list (option Element) * option Element * option Element
      * option Chart * option Chart :=
  ((λ id, doc s !! id) <$> result_fields,
   doc s !! "results", doc s !! "convergenceSection",
   chartInstance s, convergenceChartInstance s).

(** The field names of a payload, in order. *)
Definition field_names (v : Val) : option (list string) :=
  match v with
  | VObj fields => Some (fields.*1)
  | _ => None
  end.

(** An awaited request that fails by throwing. *)
Definition thrown (o : Outcome) : option Exn :=
  match o with
  | NetworkFailure => Some NetworkError
  | BadBody _ => Some SyntaxError
  | Reply _ _ => None
  end.

(** The button a suspended handler restores when it finishes, and the
    label it puts back. *)
Definition button_of (p : Pending) : string * string :=
  match p with
  | PFetch _ => ("fetchBtn", "Fetch Data")
  | PSimulate => ("simulateBtn", "Run Simulation")
  | PConvergence => ("convergenceBtn", "Analyze Convergence")
  end.

(** Every suspended handler still has its button. *)
Definition pending_have_buttons (s : State) : Prop :=
  ∀ p, p ∈ pending s → is_Some (doc s !! (button_of p).1).

(** A computation suspends at most once, as a handler satisfying [P]. *)
Definition appends {A} (P : Pending → Prop) (m : M A) : Prop :=
  ∀ s, pending (m s).2 = pending s
       ∨ ∃ p, P p ∧ pending (m s).2 = pending s ++ [p].

(** The [q] entry of a payload built in state [s]. *)
Definition q_entry (s : State) : Val :=
  match doc s !! "q" with
  | Some e => VStr (value e)
  | None => VNum num_zero
  end.

(** A stock-data reply that carries a numeric price and volatility. *)
Definition quote_of (data : Val) (price volatility : Num) : Prop :=
  get_prop data "current_price" = inr (VNum price)
  ∧ get_prop data "volatility" = inr (VNum volatility).

(** The form fields the fetch handler fills in. *)
Definition quote_fields_present (s : State) : Prop :=
  is_Some (doc s !! "S0") ∧ is_Some (doc s !! "sigma")
  ∧ is_Some (doc s !! "r") ∧ is_Some (doc s !! "K").

(** The button [id] is disabled and shows [label]. *)
Definition busy (id label : string) (s : State) : Prop :=
  ∃ b, doc s !! id = Some b ∧ textContent b = label ∧ disabled b = true.

(** The suspended handlers of the button [id]. *)
Definition in_flight (id : string) (s : State) : list Pending :=
  filter (λ p, (button_of p).1 = id) (pending s).

(** What a button shows: its label and whether it is disabled. *)
Definition face (e : Element) : string * bool := (textContent e, disabled e).

(** The label a button carries while its request is under way. *)
Definition loading_label (id : string) : string :=
  if decide (id = "fetchBtn") then "Loading..."
  else if decide (id = "simulateBtn") then "Running Simulation..."
  else "Analyzing...".

(** At most one request of the button [id] is under way, and while it is
    the button is disabled and shows its loading label. *)
Definition one_request (id : string) (s : State) : Prop :=
  length (in_flight id s) ≤ 1
  ∧ (in_flight id s ≠ [] → busy id (loading_label id) s).

(** The numbers of a pricing result. *)
Record Prices := mkPrices {
  bs_call : Num; bs_put : Num;
  mc_call : Num; mc_put : Num;
  mc_call_stderr : Num; mc_put_stderr : Num
}.

(** [data] carries the prices [p] under [bs] and [mc], the way
    [displayResults] reads them. *)
Definition prices_of (data : Val) (p : Prices) : Prop :=
  ∃ bs mc,
    get_prop data "bs" = inr bs ∧ get_prop data "mc" = inr mc
    ∧ get_prop bs "call_price" = inr (VNum (bs_call p))
    ∧ get_prop bs "put_price" = inr (VNum (bs_put p))
    ∧ get_prop mc "call_price" = inr (VNum (mc_call p))
    ∧ get_prop mc "put_price" = inr (VNum (mc_put p))
    ∧ get_prop mc "call_stderr" = inr (VNum (mc_call_stderr p))
    ∧ get_prop mc "put_stderr" = inr (VNum (mc_put_stderr p)).

(** [data.mc] carries the sample paths [paths] over the time grid [steps]. *)
Definition paths_of (data : Val) (steps : Val) (paths : list Val) : Prop :=
  ∃ mc, get_prop data "mc" = inr mc
        ∧ get_prop mc "steps" = inr steps
        ∧ get_prop mc "paths" = inr (VArr paths).

(** The elements [displayResults] and [renderChart] look up. *)
Definition result_elements : list string :=
  "results" :: "simulationChart" :: result_fields.

(** The texts of the result fields. *)
Definition displayed (s : State) : list (option string) :=
  (λ id, element_view id textContent s) <$> result_fields.

(** The texts a pricing result is shown as, under the currency symbol
    [currency]. *)
Definition price_texts (currency : Val) (p : Prices) : list (option string) :=
  let money n := Some (to_string currency +:+ num_toFixed n 4) in
  let error n := Some ("±" +:+ num_toFixed n 4) in
  [money (bs_call p); money (bs_put p); money (mc_call p); money (mc_put p);
   error (mc_call_stderr p); error (mc_put_stderr p)].

(** What the form holds: the value of every element. *)
Definition form_values (s : State) : gmap string string :=
  value <$> doc s.

(** What the page says about the currency: the symbol the prices are
    prefixed with and the texts of the currency labels. *)
Definition currency_view (s : State) : Val * list string :=
  (currentCurrency s, textContent <$> currencyLabels s).

End Script.

Arguments Val Num : clear implicits.
Arguments State Num : clear implicits.
Arguments Chart Num : clear implicits.
Arguments Request Num : clear implicits.
Arguments Outcome Num : clear implicits.
Arguments Event Num : clear implicits.
Arguments M Num A : clear implicits.
Arguments Prices Num : clear implicits.

(** ** A concrete runtime and page

    Integer-valued numbers with their decimal rendering, upper-casing of
    the letters a-z, and a page with every element the script looks up;
    they serve to run the handlers on integers and ASCII tickers, where
    they agree with the browser. *)

Definition int_toFixed (z : Z) (digits : nat) : string :=
  match digits with
  | O => pretty z
  | _ => pretty z +:+ "." +:+ String.concat "" (replicate digits "0")
  end.

(** Upper-casing on ASCII strings: the bytes a-z are mapped, every other
    byte is kept. *)
Definition upper_ascii (c : ascii) : ascii :=
  let n := nat_of_ascii c in
  if Nat.leb 97 n && Nat.leb n 122 then ascii_of_nat (n - 32) else c.

Fixpoint ascii_toUpperCase (s : string) : string :=
  match s with
  | EmptyString => EmptyString
  | String c rest => String (upper_ascii c) (ascii_toUpperCase rest)
  end.

Lemma ascii_toUpperCase_empty str : ascii_toUpperCase str = "" ↔ str = "".
Proof. by destruct str. Qed.

Definition int_number : JSNumber Z := {|
  num_zero := 0%Z;
  num_falsy := λ z, Z.eqb z 0;
  num_toString := pretty;
  num_toFixed := int_toFixed;
  toUpperCase := ascii_toUpperCase;
  toUpperCase_empty := ascii_toUpperCase_empty
|}.

Definition input (v : string) : Element := mkElement v "" ∅ false None.
Definition button (label : string) : Element := mkElement "" label ∅ false None.
Definition block (text : string) (classes : gset string) : Element :=
  mkElement "" text classes false None.
Definition custom_option (label data_value : string) : Element :=
  mkElement "" label {["custom-option"]} false (Some data_value).

Definition sample_doc : gmap string Element :=
  list_to_map
    [("fetchBtn", button "Fetch Data");
     ("simulateBtn", button "Run Simulation");
     ("convergenceBtn", button "Analyze Convergence");
     ("paramsForm", block "" ∅);
     ("tickerInput", input "aapl");
     ("S0", input "100"); ("K", input "105"); ("T", input "1");
     ("r", input "0.05"); ("sigma", input "0.2"); ("q", input "0.01");
     ("steps", input "252"); ("method", input "standard");
     ("volSource", block "" ∅);
     ("methodSelectTrigger", block "" ∅);
     ("results", block "" {["hidden"]});
     ("convergenceSection", block "" {["hidden"]});
     ("bsCall", block "-" ∅); ("bsPut", block "-" ∅);
     ("mcCall", block "-" ∅); ("mcPut", block "-" ∅);
     ("mcCallErr", block "-" ∅); ("mcPutErr", block "-" ∅);
     ("simulationChart", block "" ∅); ("convergenceChart", block "" ∅)].

Definition sample_page : State Z :=
  mkState sample_doc
    [custom_option "Standard Monte Carlo" "standard";
     custom_option "Antithetic Variates" "antithetic";
     custom_option "Control Variates" "control_variate"]
    (Some (block "Standard Monte Carlo" {["custom-select__trigger"]}))
    [block "($)" {["currency-label"]}; block "($)" {["currency-label"]}]
    (VStr "$") None None [] [] [].

(** The same page without the optional dividend-yield field. *)
Definition sample_page_no_q : State Z :=
  set_doc (delete "q" sample_doc) sample_page.

(** A stock-data reply as the market-data collaborator shapes it. *)
Definition sample_quote : Val Z :=
  VObj [("current_price", VNum 187%Z); ("volatility", VNum 0%Z);
        ("risk_free_rate", VNum 4%Z); ("currency", VStr "$")].

(** An error reply. *)
Definition sample_error : Val Z := VObj [("error", VStr "Invalid parameter")].

(** The page after the user has picked the antithetic option. *)
Definition antithetic_events : list (Event Z) := [EvOptionClick 1].

(** A session: type a ticker, fetch, submit, and let the fetch finish. *)
Definition fetch_events : list (Event Z) :=
  [EvInput "tickerInput" "msft"; EvFetchClick; EvSubmit].

Definition antithetic_page : State Z :=
  default sample_page (@run Z int_number antithetic_events sample_page).

Definition fetching_page : State Z :=
  default sample_page (@run Z int_number fetch_events sample_page).

(** The requests the sample page sends. *)
Definition sample_simulate_request : Request Z :=
  mkRequest "/api/simulate" "POST" json_headers
    (VObj [("S0", VStr "100"); ("K", VStr "105"); ("T", VStr "1");
           ("r", VStr "0.05"); ("sigma", VStr "0.2"); ("q", VStr "0.01");
           ("steps", VStr "252"); ("method", VStr "standard")]).

Definition sample_convergence_request : Request Z :=
  mkRequest "/api/convergence" "POST" json_headers
    (VObj [("S0", VStr "100"); ("K", VStr "105"); ("T", VStr "1");
           ("r", VStr "0.05"); ("sigma", VStr "0.2"); ("q", VStr "0.01");
           ("method", VStr "standard")]).

(** The sample page with the ticker field left empty. *)
Definition sample_page_no_ticker : State Z :=
  set_doc (<["tickerInput" := input ""]> sample_doc) sample_page.

(** A pricing reply: Black-Scholes prices, Monte Carlo estimates with
    their standard errors, and two sample paths over three time points. *)
Definition sample_paths : list (Val Z) :=
  [VArr [VNum 100%Z; VNum 101%Z; VNum 103%Z];
   VArr [VNum 100%Z; VNum 98%Z; VNum 99%Z]].

Definition sample_steps : Val Z := VArr [VNum 0%Z; VNum 1%Z; VNum 2%Z].

Definition sample_result : Val Z :=
  VObj [("bs", VObj [("call_price", VNum 8%Z); ("put_price", VNum 7%Z)]);
        ("mc", VObj [("call_price", VNum 9%Z); ("put_price", VNum 6%Z);
                     ("call_stderr", VNum 1%Z); ("put_stderr", VNum 2%Z);
                     ("steps", sample_steps); ("paths", VArr sample_paths)])].

Definition sample_prices : Prices Z := mkPrices 8%Z 7%Z 9%Z 6%Z 1%Z 2%Z.

(** A pricing reply that lacks the Monte Carlo part. *)
Definition sample_result_no_mc : Val Z :=
  VObj [("bs", VObj [("call_price", VNum 8%Z); ("put_price", VNum 7%Z)])].

(** A stock quote in another currency, and one whose volatility could not
    be computed. *)
Definition sample_quote_inr : Val Z :=
  VObj [("current_price", VNum 2950%Z); ("volatility", VNum 0%Z);
        ("risk_free_rate", VNum 7%Z); ("currency", VStr "Rs.")].

Definition sample_quote_no_vol : Val Z :=
  VObj [("current_price", VNum 187%Z); ("volatility", VNull)].

(** A convergence reply. *)
Definition sample_curve : Val Z :=
  VObj [("x", VArr [VNum 100%Z; VNum 1000%Z]);
        ("y", VArr [VNum 9%Z; VNum 8%Z]);
        ("bs_line", VArr [VNum 8%Z; VNum 8%Z])].

(** ** The pricing core behind [/api/simulate] and [/api/convergence] *)

Module Core.

Inductive Error := InvalidParameter.

(** Modelled from the spec: the Parameter Validator (section 4.1), which
    lives in the server and is not among the sources.  A raw scalar is
    absent, present but not parseable as a finite real, or a finite number;
    validation fails with [InvalidParameter] when any of S0, K, T is at most
    0, sigma is below 0, steps or N is below 1, or a value cannot be parsed;
    an absent q defaults to 0. *)
Inductive Raw :=
  | Absent
  | Unparseable
  | Finite (x : Q).

Record RawRequest := mkRawRequest {
  raw_S0 : Raw; raw_K : Raw; raw_T : Raw; raw_r : Raw;
  raw_sigma : Raw; raw_q : Raw; raw_steps : Raw; raw_N : Raw
}.

Record OptionParameters := mkOptionParameters {
  S0 : Q; K : Q; T : Q; r : Q; q : Q; sigma : Q
}.

Record SimulationConfig := mkSimulationConfig { steps : Q; N : Q }.

Definition parse (x : Raw) : Error + Q :=
  match x with
  | Finite v => inr v
  | Absent | Unparseable => inl InvalidParameter
  end.

Definition parse_default (d : Q) (x : Raw) : Error + Q :=
  match x with
  | Absent => inr d
  | Finite v => inr v
  | Unparseable => inl InvalidParameter
  end.

Definition check (ok : bool) : Error + unit :=
  if ok then inr tt else inl InvalidParameter.

Definition and_then {A B} (x : Error + A) (k : A → Error + B) : Error + B :=
  match x with inl e => inl e | inr a => k a end.

Definition positive (x : Q) : bool := negb (Qle_bool x 0).
Definition non_negative (x : Q) : bool := Qle_bool 0 x.
Definition at_least_one (x : Q) : bool := Qle_bool 1 x.

(** Modelled from the spec: the validation of section 4.1 (the validator
    is not among the sources): parse every scalar, default q, then check
    the domains. *)
Definition validate (raw : RawRequest)
    : Error + (OptionParameters * SimulationConfig) :=
  and_then (parse (raw_S0 raw)) (λ vS0,
  and_then (parse (raw_K raw)) (λ vK,
  and_then (parse (raw_T raw)) (λ vT,
  and_then (parse (raw_r raw)) (λ vr,
  and_then (parse (raw_sigma raw)) (λ vsigma,
  and_then (parse_default 0%Q (raw_q raw)) (λ vq,
  and_then (parse (raw_steps raw)) (λ vsteps,
  and_then (parse (raw_N raw)) (λ vN,
  and_then (check (positive vS0 && positive vK && positive vT
                   && non_negative vsigma
                   && at_least_one vsteps && at_least_one vN)) (λ _,
  inr (mkOptionParameters vS0 vK vT vr vq vsigma,
       mkSimulationConfig vsteps vN)))))))))).

(** The inputs the validator must reject. *)
Definition at_most_zero (x : Raw) : Prop := ∃ v, x = Finite v ∧ (v <= 0)%Q.
Definition below_zero (x : Raw) : Prop := ∃ v, x = Finite v ∧ (v < 0)%Q.
Definition below_one (x : Raw) : Prop := ∃ v, x = Finite v ∧ (v < 1)%Q.

Definition scalars (raw : RawRequest) : list Raw :=
  [raw_S0 raw; raw_K raw; raw_T raw; raw_r raw; raw_sigma raw; raw_q raw;
   raw_steps raw; raw_N raw].

Definition invalid (raw : RawRequest) : Prop :=
  at_most_zero (raw_S0 raw) ∨ at_most_zero (raw_K raw)
  ∨ at_most_zero (raw_T raw) ∨ below_zero (raw_sigma raw)
  ∨ below_one (raw_steps raw) ∨ below_one (raw_N raw)
  ∨ Unparseable ∈ scalars raw.

(** Requests for the examples: spot 0, and the reference scenario of the
    spec (S0 = K = 100, T = 1, r = 0.05, sigma = 0.20, q absent). *)
Definition zero_spot_request : RawRequest :=
  mkRawRequest (Finite 0) (Finite 100) (Finite 1) (Finite (5 # 100))
    (Finite (20 # 100)) Absent (Finite 252) (Finite 100000).

Definition reference_request : RawRequest :=
  mkRawRequest (Finite 100) (Finite 100) (Finite 1) (Finite (5 # 100))
    (Finite (20 # 100)) Absent (Finite 252) (Finite 100000).

Local Open Scope R_scope.

(** Modelled from the spec: the Black-Scholes Analytical Solver (section
    4.4), which lives in the server and is not among the sources.  Prices
    are exact reals; [density] is the standard normal density. *)
Definition density (t : R) : R := exp (- (t * t) / 2) / sqrt (2 * PI).

Definition density_continuous : continuity density.
Proof.
  intros x. unfold density, Rdiv.
  apply continuity_pt_mult.
  - apply (continuity_pt_comp (λ t, - (t * t) * / 2) exp).
    + apply continuity_pt_mult.
      * apply continuity_pt_opp. apply continuity_pt_mult;
          apply derivable_continuous_pt, derivable_pt_id.
      * apply continuity_pt_const. intros a b. reflexivity.
    + apply derivable_continuous_pt, derivable_pt_exp.
  - apply continuity_pt_const. intros a b. reflexivity.
Defined.

Definition density_integrable (a b : R) : Riemann_integrable density a b :=
  match Rle_dec a b with
  | left Hle =>
      continuity_implies_RiemannInt Hle (λ t _, density_continuous t)
  | right Hgt =>
      RiemannInt_P1
        (continuity_implies_RiemannInt (Rlt_le _ _ (Rnot_le_lt _ _ Hgt))
           (λ t _, density_continuous t))
  end.

(** Modelled from the spec: Phi, the standard normal cumulative
    distribution function of section 4.4 (the solver is not among the
    sources): one half plus the oriented integral of the density from 0
    to x. *)
Definition Phi (x : R) : R := 1 / 2 + RiemannInt (density_integrable 0 x).

(** Modelled from the spec: d1, d2 and the closed-form prices of section
    4.4 (the solver is not among the sources). *)
Definition d1 (S0 K T r q sigma : R) : R :=
  (ln (S0 / K) + (r - q + sigma * sigma / 2) * T) / (sigma * sqrt T).

Definition d2 (S0 K T r q sigma : R) : R :=
  d1 S0 K T r q sigma - sigma * sqrt T.

Definition call_price (S0 K T r q sigma : R) : R :=
  S0 * exp (- q * T) * Phi (d1 S0 K T r q sigma)
  - K * exp (- r * T) * Phi (d2 S0 K T r q sigma).

Definition put_price (S0 K T r q sigma : R) : R :=
  K * exp (- r * T) * Phi (- d2 S0 K T r q sigma)
  - S0 * exp (- q * T) * Phi (- d1 S0 K T r q sigma).

(** Modelled from the spec: the handling of the degenerate case of section
    4.4 (the solver is not among the sources).  sigma * sqrt T = 0 is
    handled without dividing by zero; the spec leaves the policy to the
    implementer: reject, or return the intrinsic-value limit. *)
Inductive DegeneratePolicy := Reject | IntrinsicLimit.

(** Modelled from the spec: the solver of section 4.4 as a whole (not among
    the sources). *)
Definition black_scholes (policy : DegeneratePolicy) (S0 K T r q sigma : R)
    : Error + (R * R) :=
  if Req_dec_T (sigma * sqrt T) 0 then
    match policy with
    | Reject => inl InvalidParameter
    | IntrinsicLimit =>
        inr (Rmax (S0 * exp (- q * T) - K * exp (- r * T)) 0,
             Rmax (K * exp (- r * T) - S0 * exp (- q * T)) 0)
    end
  else inr (call_price S0 K T r q sigma, put_price S0 K T r q sigma).

(** Modelled from the spec: a pricing request end to end, section 2 (the
    request handlers of the server are not among the sources): the
    validator's output feeds the analytical solver. *)
Definition price (policy : DegeneratePolicy) (raw : RawRequest)
    : Error + (R * R) :=
  and_then (validate raw) (λ '(p, _),
    black_scholes policy (Q2R (S0 p)) (Q2R (K p)) (Q2R (T p))
      (Q2R (r p)) (Q2R (q p)) (Q2R (sigma p))).

End Core.

(** * Proofs about the script *)

(** ** Proof automation *)

Ltac state_simpl :=
  cbn [doc set_doc set_alerts set_console set_pending set_currentCurrency
       set_currencyLabels set_customOptions set_triggerLabel
       set_chartInstance set_convergenceChartInstance
       customOptions triggerLabel currencyLabels currentCurrency
       chartInstance convergenceChartInstance alerts console pending
       fst snd].

Ltac lookup_doc :=
  state_simpl;
  repeat (rewrite lookup_insert_ne by done);
  first [ eassumption | apply lookup_insert_eq ].

Ltac solve_view :=
  unfold element_view; state_simpl;
  repeat (rewrite lookup_insert_ne by done);
  rewrite ?lookup_insert_eq; try done.

Section ScriptFacts.
Context {Num : Type} `{!JSNumber Num}.
Implicit Types (s : State Num) (v : Val Num) (o : Outcome Num) (ev : Event Num).

(** *** Frame rules *)

Lemma stable_ret {A X} (view : State Num → X) (a : A) : stable view (ret a).
Proof. done. Qed.

Lemma stable_throw {A X} (view : State Num → X) (e : Exn) :
  stable view (throw (A := A) e).
Proof. done. Qed.

Lemma stable_lift {A X} (view : State Num → X) (r : Exn + A) :
  stable view (lift r).
Proof. by destruct r. Qed.

Lemma stable_bind {A B X} (view : State Num → X)
    (m : M Num A) (k : A → M Num B) :
  stable view m → (∀ a, stable view (k a)) → stable view (bind m k).
Proof.
  intros Hm Hk s. unfold bind. specialize (Hm s).
  destruct (m s) as [[e|a] s']; simpl in *; [done|].
  by rewrite Hk.
Qed.

Lemma stable_when {X} (view : State Num → X) (b : bool) (m : M Num unit) :
  stable view m → stable view (when b m).
Proof. by destruct b. Qed.

Lemma stable_try_catch {X} (view : State Num → X) body handler :
  stable view body → (∀ e, stable view (handler e)) →
  stable view (try_catch body handler).
Proof.
  intros Hb Hh s. unfold try_catch. specialize (Hb s).
  destruct (body s) as [[e|[]] s']; simpl in *; [|done].
  by rewrite Hh.
Qed.

Lemma stable_try_catch_finally {X} (view : State Num → X) body handler final :
  stable view body → (∀ e, stable view (handler e)) → stable view final →
  stable view (try_catch_finally body handler final).
Proof.
  intros Hb Hh Hf s. unfold try_catch_finally. specialize (Hb s).
  destruct (body s) as [[e|[]] s1]; simpl in *.
  - specialize (Hh e s1). destruct (handler e s1) as [[e'|[]] s2]; simpl in *.
    + specialize (Hf s2).
      destruct (final s2) as [[e''|[]] s3]; simpl in *; congruence.
    + rewrite Hf. congruence.
  - by rewrite Hf.
Qed.

(** Whatever the body and the handler do, the [finally] block has the last
    word. *)
Lemma try_catch_finally_ensures {X} (view : State Num → X)
    (Q : State Num → Prop) body handler final s :
  stable view body → (∀ e, stable view (handler e)) →
  (∀ s', view s' = view s → Q (final s').2) →
  Q (try_catch_finally body handler final s).2.
Proof.
  intros Hb Hh Hf. unfold try_catch_finally. specialize (Hb s).
  destruct (body s) as [[e|[]] s1]; simpl in *.
  - specialize (Hh e s1). destruct (handler e s1) as [[e'|[]] s2]; simpl in *.
    + assert (view s2 = view s) as Hv by congruence. specialize (Hf s2 Hv).
      by destruct (final s2) as [[e''|[]] s3].
    + apply Hf. congruence.
  - by apply Hf.
Qed.

Lemma stable_await {X} (view : State Num → X) o : stable view (await o).
Proof. by destruct o. Qed.

Lemma stable_present {X} (view : State Num → X) id : stable view (present id).
Proof. done. Qed.

Lemma stable_read {A X} (view : State Num → X) id (f : Element → A) :
  stable view (read id f).
Proof. intros s. unfold read. by destruct (doc s !! id). Qed.

Lemma stable_read_option {A X} (view : State Num → X) i (f : Element → A) :
  stable view (read_option i f).
Proof. intros s. unfold read_option. by destruct (customOptions s !! i). Qed.

Lemma stable_get_currentCurrency {X} (view : State Num → X) :
  stable view get_currentCurrency.
Proof. done. Qed.

(** A write to an element is framed by what it does to the document. *)
Lemma stable_update {X} (view : State Num → X) id f :
  (∀ s e, doc s !! id = Some e →
          view (set_doc (<[id := f e]> (doc s)) s) = view s) →
  stable view (update id f).
Proof.
  intros Hv s. unfold update.
  destruct (doc s !! id) as [e|] eqn:He; simpl; [|done]. by apply Hv.
Qed.

Lemma stable_update_option {X} (view : State Num → X) i f :
  (∀ s e, customOptions s !! i = Some e →
          view (set_customOptions (<[i := f e]> (customOptions s)) s) = view s) →
  stable view (update_option i f).
Proof.
  intros Hv s. unfold update_option.
  destruct (customOptions s !! i) as [e|] eqn:He; simpl; [|done]. by apply Hv.
Qed.

Lemma stable_update_triggerLabel {X} (view : State Num → X) f :
  (∀ s l, view (set_triggerLabel l s) = view s) →
  stable view (update_triggerLabel f).
Proof.
  intros Hv s. unfold update_triggerLabel.
  destruct (doc s !! "methodSelectTrigger"), (triggerLabel s); simpl; done.
Qed.

(** Writing one element leaves the other elements, and the properties the
    write does not touch, as they were. *)
Lemma element_view_update {X} id id' (f : Element → Element)
    (g : Element → X) s e :
  id ≠ id' ∨ (∀ e, g (f e) = g e) →
  doc s !! id = Some e →
  element_view id' g (set_doc (<[id := f e]> (doc s)) s) = element_view id' g s.
Proof.
  intros Hne He. unfold element_view. simpl.
  destruct (decide (id = id')) as [<-|Hd].
  - rewrite lookup_insert_eq, He. simpl.
    destruct Hne as [|Hg]; [done|]. by rewrite Hg.
  - by rewrite lookup_insert_ne.
Qed.

Lemma dom_update id (f : Element → Element) s e :
  doc s !! id = Some e →
  dom (doc (set_doc (<[id := f e]> (doc s)) s)) = dom (doc s).
Proof.
  intros He. simpl. apply dom_insert_lookup_L. by rewrite He.
Qed.

Lemma dataset_update_option i (f : Element → Element) s e :
  (∀ e, dataset_value (f e) = dataset_value e) →
  customOptions s !! i = Some e →
  dataset_value <$> customOptions (set_customOptions (<[i := f e]> (customOptions s)) s)
  = dataset_value <$> customOptions s.
Proof.
  intros Hf He. simpl. rewrite list_fmap_insert, Hf.
  apply list_insert_id. by rewrite list_lookup_fmap, He.
Qed.

Lemma dataset_update_all (f : Element → Element) (l : list Element) :
  (∀ e, dataset_value (f e) = dataset_value e) →
  dataset_value <$> (f <$> l) = dataset_value <$> l.
Proof.
  intros Hf. rewrite <- list_fmap_compose. apply list_fmap_ext.
  intros ? e _. simpl. apply Hf.
Qed.

(** *** Running a computation step by step *)

Lemma bind_ok {A B} (m : M Num A) (k : A → M Num B) s a s' :
  m s = (inr a, s') → bind m k s = k a s'.
Proof. unfold bind. by intros ->. Qed.

Lemma bind_throw {A B} (m : M Num A) (k : A → M Num B) s e s' :
  m s = (inl e, s') → bind m k s = (inl e, s').
Proof. unfold bind. by intros ->. Qed.

Lemma update_ok id f s e :
  doc s !! id = Some e →
  update id f s = (inr tt, set_doc (<[id := f e]> (doc s)) s).
Proof. unfold update. by intros ->. Qed.

Lemma update_fail id f s :
  doc s !! id = None → update id f s = (inl TypeError, s).
Proof. unfold update. by intros ->. Qed.

Lemma read_ok {A} id (f : Element → A) s e :
  doc s !! id = Some e → read id f s = (inr (f e), s).
Proof. unfold read. by intros ->. Qed.

Lemma read_fail {A} id (f : Element → A) s :
  doc s !! id = None → read id f s = (inl TypeError, s).
Proof. unfold read. by intros ->. Qed.

Lemma present_true id s e :
  doc s !! id = Some e → present id s = (inr true, s).
Proof.
  intros He. unfold present. do 2 f_equal.
  apply bool_decide_eq_true. by rewrite He.
Qed.

Lemma present_false id s :
  doc s !! id = None → present id s = (inr false, s).
Proof.
  intros He. unfold present. do 2 f_equal.
  apply bool_decide_eq_false. rewrite He. by intros [? ?].
Qed.

Lemma update_option_ok i f s e :
  customOptions s !! i = Some e →
  update_option i f s
  = (inr tt, set_customOptions (<[i := f e]> (customOptions s)) s).
Proof. unfold update_option. by intros ->. Qed.

Lemma update_option_fail i f s :
  customOptions s !! i = None → update_option i f s = (inl TypeError, s).
Proof. unfold update_option. by intros ->. Qed.

Lemma read_option_ok {A} i (f : Element → A) s e :
  customOptions s !! i = Some e → read_option i f s = (inr (f e), s).
Proof. unfold read_option. by intros ->. Qed.

Lemma update_triggerLabel_ok f s e l :
  doc s !! "methodSelectTrigger" = Some e → triggerLabel s = Some l →
  update_triggerLabel f s = (inr tt, set_triggerLabel (Some (f l)) s).
Proof. unfold update_triggerLabel. by intros -> ->. Qed.

Lemma update_triggerLabel_fail f s :
  doc s !! "methodSelectTrigger" = None ∨ triggerLabel s = None →
  update_triggerLabel f s = (inl TypeError, s).
Proof.
  unfold update_triggerLabel. intros [-> | ->]; [done|].
  by destruct (doc s !! "methodSelectTrigger").
Qed.

Lemma strict_eq_data_value e x :
  strict_eq_string (data_value_of (Num := Num) e) x = true
  ↔ dataset_value e = Some x.
Proof.
  unfold data_value_of. destruct (dataset_value e) as [d|]; simpl; [|done].
  rewrite String.eqb_eq. split; congruence.
Qed.

Lemma get_prop_defined (d : Val Num) k k' x :
  get_prop d k = inr x → ∃ y, get_prop d k' = inr y.
Proof. destruct d; simpl; intros; simplify_eq; eauto. Qed.

End ScriptFacts.

Ltac exec_leaf :=
  lazymatch goal with
  | |- present _ _ = _ =>
      first [ eapply present_true; lookup_doc
            | eapply present_false; lookup_doc ]
  | |- update _ _ _ = _ => eapply update_ok; lookup_doc
  | |- read _ _ _ = _ => eapply read_ok; lookup_doc
  | |- bind _ _ _ = _ => fail
  | |- _ => reflexivity
  end.

Ltac exec_prim :=
  lazymatch goal with
  | |- bind _ _ _ = _ =>
      repeat first
        [ erewrite bind_ok by exec_prim
        | progress cbn [lift when fst snd await ret] ];
      exec_leaf
  | |- _ => exec_leaf
  end.

Ltac exec_prim_fail :=
  lazymatch goal with
  | |- update _ _ _ = _ => eapply update_fail; lookup_doc
  | |- read _ _ _ = _ => eapply read_fail; lookup_doc
  | |- bind _ _ _ = _ =>
      repeat first
        [ erewrite bind_ok by exec_prim
        | progress cbn [lift when fst snd await ret] ];
      lazymatch goal with
      | |- bind _ _ _ = _ => erewrite bind_throw by exec_prim_fail; reflexivity
      | |- _ => exec_prim_fail
      end
  | |- _ => reflexivity
  end.

(** Run the computation in the goal as far as the hypotheses about the
    document determine it. *)
Ltac exec :=
  repeat first
    [ erewrite bind_ok by exec_prim
    | erewrite bind_throw by exec_prim_fail
    | erewrite update_ok by lookup_doc
    | erewrite update_fail by lookup_doc
    | erewrite read_ok by lookup_doc
    | erewrite read_fail by lookup_doc
    | erewrite present_true by lookup_doc
    | erewrite present_false by lookup_doc
    | progress state_simpl
    | progress cbn [lift when fst snd await]
    | progress cbv beta iota delta
        [ret throw alert console_error suspend put_currentCurrency
         get_currentCurrency update_all_currencyLabels update_all_options] ].

(** *** Frame automation *)

Ltac stable_struct :=
  lazymatch goal with
  | |- stable _ (bind _ _) => apply stable_bind; [| intros ?]
  | |- stable _ (ret _) => apply stable_ret
  | |- stable _ (throw _) => apply stable_throw
  | |- stable _ (lift _) => apply stable_lift
  | |- stable _ (await _) => apply stable_await
  | |- stable _ (present _) => apply stable_present
  | |- stable _ (read _ _) => apply stable_read
  | |- stable _ (read_option _ _) => apply stable_read_option
  | |- stable _ get_currentCurrency => apply stable_get_currentCurrency
  | |- stable _ (when _ _) => apply stable_when
  | |- stable _ (try_catch_finally _ _ _) =>
      apply stable_try_catch_finally; [| intros ? |]
  | |- stable _ (try_catch _ _) => apply stable_try_catch; [| intros ?]
  | |- stable _ (if ?b then _ else _) => destruct b
  | |- stable _ (match ?x with _ => _ end) => destruct x
  end.

Ltac unfold_script :=
  unfold resume, fetchBtn_resume, paramsForm_resume, convergenceBtn_resume,
    fetchBtn_click, paramsForm_submit, convergenceBtn_click,
    customOption_click, document_click, methodSelectTrigger_click,
    displayResults, renderChart, renderConvergenceChart, format, stderr_text,
    q_or_default, method_or_default; cbv zeta.

(** [prim] frames the writes. *)
Ltac stable_with prim := unfold_script; repeat first [ stable_struct | prim ].

Ltac frame_other :=
  first
    [ apply stable_update_option; intros ? ? ?; reflexivity
    | apply stable_update_triggerLabel; intros ? ?; reflexivity
    | intros ?; reflexivity ].

(** Frames for a view of one element. *)
Ltac frame_element :=
  first
    [ apply stable_update; intros ? ? ?; apply element_view_update;
      [ first [ left; done | right; done ] | assumption ]
    | frame_other ].

(** Frames for the set of element ids. *)
Ltac frame_dom :=
  first [ apply stable_update; intros ? ? ?; by apply dom_update | frame_other ].

(** Frames for the [data-value] attributes of the custom options. *)
Ltac frame_dataset :=
  first
    [ apply stable_update; intros ? ? ?; reflexivity
    | apply stable_update_option; intros ? ? ?;
      apply dataset_update_option; [done | assumption]
    | apply stable_update_triggerLabel; intros ? ?; reflexivity
    | intros ?; simpl; first [ reflexivity | by apply dataset_update_all ] ].

(** Frames for a view that does not read the document. *)
Ltac frame_field :=
  first [ apply stable_update; intros ? ? ?; reflexivity | frame_other ].

(** Close a goal [view (m s).2 = view s] by framing [m]. *)
Ltac by_stable prim :=
  lazymatch goal with
  | |- ?view (?m ?s).2 = ?view ?s =>
      let H := fresh in
      assert (stable view m) as H by (stable_with prim); apply H
  end.

Section Frames.
Context {Num : Type} `{!JSNumber Num}.
Implicit Types (s : State Num) (v : Val Num) (o : Outcome Num) (ev : Event Num).

Lemma resume_keeps_method p o lib_ok :
  stable (element_view "method" value) (resume p o lib_ok).
Proof. destruct p; stable_with frame_element. Qed.

Lemma resume_keeps_convergenceBtn_classes p o lib_ok :
  stable (element_view "convergenceBtn" classList) (resume p o lib_ok).
Proof. destruct p; stable_with frame_element. Qed.

Lemma editable_not_method id : id ∈ editable → id ≠ "method".
Proof.
  unfold editable. intros Hin ->.
  repeat (apply elem_of_cons in Hin as [Hin|Hin]; [done|]).
  by apply elem_of_nil in Hin.
Qed.

(** Only the custom dropdown writes the method input. *)
Lemma handler_keeps_method ev s :
  (∀ i, ev ≠ EvOptionClick i) → enabled ev s = true →
  element_view "method" value (handler ev s).2 = element_view "method" value s.
Proof.
  intros Hev Hen. destruct ev as [id text| |inside|i| | | |i o lib_ok];
    unfold handler.
  - apply andb_prop in Hen as [Hid _]. apply bool_decide_eq_true in Hid.
    apply editable_not_method in Hid.
    apply (stable_update (element_view "method" value)).
    intros. apply element_view_update; [by left | done].
  - by_stable frame_element.
  - by_stable frame_element.
  - by destruct (Hev i).
  - by_stable frame_element.
  - by_stable frame_element.
  - by_stable frame_element.
  - destruct (pending s !! i); [|done].
    by rewrite resume_keeps_method.
Qed.

Lemma handler_keeps_convergenceBtn_classes ev s :
  (∀ i, ev ≠ EvOptionClick i) →
  element_view "convergenceBtn" classList (handler ev s).2
  = element_view "convergenceBtn" classList s.
Proof.
  intros Hev. destruct ev as [id text| |inside|i| | | |i o lib_ok];
    unfold handler; try by_stable frame_element.
  - by destruct (Hev i).
  - destruct (pending s !! i); [|done].
    by rewrite resume_keeps_convergenceBtn_classes.
Qed.

(** No handler adds or removes an element. *)
Lemma handler_keeps_dom ev s : dom (doc (handler ev s).2) = dom (doc s).
Proof.
  destruct ev as [id text| |inside|i| | | |i o lib_ok]; unfold handler;
    try (change (dom (doc ?x)) with ((λ s, dom (doc s)) x);
         by_stable frame_dom).
  destruct (pending s !! i) as [p|]; [|done].
  assert (stable (λ s, dom (doc s)) (resume p o lib_ok)) as Hst
    by (destruct p; stable_with frame_dom).
  by rewrite (Hst _).
Qed.

(** No handler changes a [data-value] attribute. *)
Lemma handler_keeps_dataset ev s :
  dataset_value <$> customOptions (handler ev s).2
  = dataset_value <$> customOptions s.
Proof.
  destruct ev as [id text| |inside|i| | | |i o lib_ok]; unfold handler;
    try (change (dataset_value <$> customOptions ?x)
           with ((λ s, dataset_value <$> customOptions s) x);
         by_stable frame_dataset).
  destruct (pending s !! i) as [p|]; [|done].
  assert (stable (λ s, dataset_value <$> customOptions s) (resume p o lib_ok))
    as Hst by (destruct p; stable_with frame_dataset).
  by rewrite (Hst _).
Qed.

(** What a click on a custom option does to the method input and to the
    convergence button: nothing when the handler throws before line 43,
    and otherwise the method becomes the option's value and the button
    carries [hidden] exactly for antithetic. *)
Lemma customOption_click_effect i s :
  let r := customOption_click i s in
  (element_view "method" value r.2 = element_view "method" value s
   ∧ element_view "convergenceBtn" classList r.2
     = element_view "convergenceBtn" classList s
   ∧ r.1 ≠ inr tt)
  ∨ (∃ e, customOptions s !! i = Some e
     ∧ element_view "method" value r.2
       = Some (to_value_string (data_value_of e))
     ∧ ∀ b, doc r.2 !! "convergenceBtn" = Some b →
            ("hidden" ∈ classList b ↔ dataset_value e = Some "antithetic")).
Proof.
  intros r. assert (r = customOption_click i s) as Hr by done.
  clearbody r. revert Hr. unfold customOption_click. exec.
  destruct (customOptions s !! i) as [e|] eqn:He.
  2: { erewrite bind_throw.
       2: { apply update_option_fail. simpl. by rewrite list_lookup_fmap, He. }
       intros ->. left. by solve_view. }
  erewrite bind_ok.
  2: { eapply update_option_ok. simpl. by rewrite list_lookup_fmap, He. }
  assert (∀ l : list Element, l !! i = Some (classList_remove "selected" e) →
            <[i:=classList_add "selected" (classList_remove "selected" e)]> l !! i
            = Some (classList_add "selected" (classList_remove "selected" e)))
    as Hi.
  { intros l Hl. apply list_lookup_insert_eq. by eapply lookup_lt_Some. }
  erewrite bind_ok.
  2: { eapply read_option_ok. simpl. apply Hi. by rewrite list_lookup_fmap, He. }
  destruct (doc s !! "methodSelectTrigger") as [et|] eqn:Het.
  2: { erewrite bind_throw.
       2: { apply update_triggerLabel_fail. by left. }
       intros ->. left. by solve_view. }
  destruct (triggerLabel s) as [l|] eqn:Hl.
  2: { erewrite bind_throw.
       2: { apply update_triggerLabel_fail. by right. }
       intros ->. left. by solve_view. }
  erewrite bind_ok by (by eapply update_triggerLabel_ok).
  erewrite bind_ok.
  2: { eapply read_option_ok. simpl. apply Hi. by rewrite list_lookup_fmap, He. }
  change (data_value_of (classList_add "selected" (classList_remove "selected" e)))
    with (data_value_of (Num := Num) e).
  destruct (doc s !! "method") as [em|] eqn:Hem.
  2: { exec. intros ->. left. by solve_view. }
  destruct (doc s !! "convergenceBtn") as [eb|] eqn:Heb; exec.
  2: { intros ->. right. exists e. split; [done|]. split; [by solve_view|].
       intros b. state_simpl. repeat (rewrite lookup_insert_ne by done).
       by rewrite Heb. }
  destruct (strict_eq_string (data_value_of e) "antithetic") eqn:Hanti; exec;
    intros ->; right; exists e; (split; [done|]); (split; [by solve_view|]);
    intros b; state_simpl; repeat (rewrite lookup_insert_ne by done);
    rewrite lookup_insert_eq; intros [= <-]; simpl.
  - apply (strict_eq_data_value (Num := Num)) in Hanti.
    split; [done|]. intros _.
    apply elem_of_union_l. by apply elem_of_singleton.
  - split.
    + intros [_ Hne]%elem_of_difference. destruct Hne. by apply elem_of_singleton.
    + intros Hd. apply (strict_eq_data_value (Num := Num)) in Hd. congruence.
Qed.

Lemma results_view_update id (f : Element → Element) s e :
  id = "simulateBtn" ∨ id = "convergenceBtn" ∨ id = "fetchBtn" →
  results_view (set_doc (<[id := f e]> (doc s)) s) = results_view s.
Proof.
  intros Hid. unfold results_view, result_fields. simpl.
  by destruct Hid as [-> | [-> | ->]]; rewrite !lookup_insert_ne.
Qed.

Lemma bind_ret_l {A B} (a : A) (k : A → M Num B) : bind (ret a) k = k a.
Proof. reflexivity. Qed.

Lemma bind_throw_l {A B} (e : Exn) (k : A → M Num B) :
  bind (throw e) k = throw e.
Proof. reflexivity. Qed.

Lemma try_catch_finally_ok body handler final s s1 :
  body s = (inr tt, s1) →
  try_catch_finally body handler final s = final s1.
Proof. unfold try_catch_finally. by intros ->. Qed.

Lemma try_catch_finally_caught body handler final s e s1 s2 :
  body s = (inl e, s1) → handler e s1 = (inr tt, s2) →
  try_catch_finally body handler final s = final s2.
Proof. unfold try_catch_finally. by intros -> ->. Qed.

(** A view the [finally] block does not touch sees the [try]/[catch]
    part only. *)
Lemma try_catch_finally_view {X} (view : State Num → X) body handler final s :
  stable view final →
  view (try_catch_finally body handler final s).2
  = view (try_catch body handler s).2.
Proof.
  intros Hf. unfold try_catch_finally, try_catch.
  destruct (body s) as [[e|[]] s1]; [|apply Hf].
  destruct (handler e s1) as [[e'|[]] s2]; simpl; [|apply Hf].
  specialize (Hf s2). by destruct (final s2) as [[?|[]] ?].
Qed.

Lemma try_catch_finally_reply {X} (view : State Num → X)
    (k : bool * Val Num → M Num unit) handler final ok data s :
  stable view final →
  view (try_catch_finally (bind (await (Reply ok data)) k) handler final s).2
  = view (try_catch (k (ok, data)) handler s).2.
Proof. intros Hf. by rewrite try_catch_finally_view. Qed.

End Frames.

(** Frames for the result view: the buttons are not part of it. *)
Ltac frame_results :=
  first
    [ apply stable_update; intros ? ? ?; apply results_view_update; tauto
    | frame_other ].

(** Split on whether the element [id] exists; a handler that needs it has
    thrown in the second case. *)
Ltac need s id :=
  let e := fresh "e" in
  destruct (doc s !! id) as [e|] eqn:?;
  [| unfold q_or_default, method_or_default; exec; intros ?; simplify_eq ].

Section Requests.
Context {Num : Type} `{!JSNumber Num}.
Implicit Types (s : State Num) (v : Val Num) (o : Outcome Num) (ev : Event Num).

(** The request the submit handler sends, when it gets as far as sending. *)
Lemma paramsForm_submit_request s req s' :
  paramsForm_submit s = (inr req, s') →
  ∃ eS0 eK eT er esigma esteps,
    doc s !! "S0" = Some eS0 ∧ doc s !! "K" = Some eK
    ∧ doc s !! "T" = Some eT ∧ doc s !! "r" = Some er
    ∧ doc s !! "sigma" = Some esigma ∧ doc s !! "steps" = Some esteps
    ∧ req = mkRequest "/api/simulate" "POST" json_headers
              (VObj [("S0", VStr (value eS0)); ("K", VStr (value eK));
                     ("T", VStr (value eT)); ("r", VStr (value er));
                     ("sigma", VStr (value esigma)); ("q", q_entry s);
                     ("steps", VStr (value esteps));
                     ("method", VStr (selected_method s))]).
Proof.
  unfold paramsForm_submit, q_entry, selected_method.
  need s "simulateBtn". need s "S0". need s "K". need s "T". need s "r".
  need s "sigma".
  unfold q_or_default, method_or_default.
  destruct (doc s !! "q") eqn:?; (need s "steps");
    destruct (doc s !! "method") eqn:?; exec;
    intros ?; simplify_eq; eauto 15.
Qed.

(** The request the convergence handler sends. *)
Lemma convergenceBtn_click_request s req s' :
  convergenceBtn_click s = (inr req, s') →
  ∃ eS0 eK eT er esigma,
    doc s !! "S0" = Some eS0 ∧ doc s !! "K" = Some eK
    ∧ doc s !! "T" = Some eT ∧ doc s !! "r" = Some er
    ∧ doc s !! "sigma" = Some esigma
    ∧ req = mkRequest "/api/convergence" "POST" json_headers
              (VObj [("S0", VStr (value eS0)); ("K", VStr (value eK));
                     ("T", VStr (value eT)); ("r", VStr (value er));
                     ("sigma", VStr (value esigma)); ("q", q_entry s);
                     ("method", VStr (selected_method s))]).
Proof.
  unfold convergenceBtn_click, q_entry, selected_method.
  need s "convergenceBtn". need s "S0". need s "K". need s "T". need s "r".
  need s "sigma".
  unfold q_or_default, method_or_default.
  destruct (doc s !! "q") eqn:?; destruct (doc s !! "method") eqn:?; exec;
    intros ?; simplify_eq; eauto 15.
Qed.

End Requests.

Section Invariants.
Context {Num : Type} `{!JSNumber Num}.
Implicit Types (s : State Num) (v : Val Num) (o : Outcome Num) (ev : Event Num).

Lemma to_value_string_data_value e :
  to_value_string (data_value_of (Num := Num) e)
  = default "undefined" (dataset_value e).
Proof. unfold data_value_of. by destruct (dataset_value e). Qed.

Lemma selected_method_view s :
  selected_method s = default "standard" (element_view "method" value s).
Proof. unfold selected_method, element_view. by destruct (doc s !! "method"). Qed.

Lemma antithetic_hidden_views s s' :
  element_view "method" value s' = element_view "method" value s →
  element_view "convergenceBtn" classList s'
  = element_view "convergenceBtn" classList s →
  antithetic_hidden s → antithetic_hidden s'.
Proof.
  unfold antithetic_hidden, element_view. intros Hm Hc Hinv m b Hm' Hv Hb'.
  rewrite Hm' in Hm. rewrite Hb' in Hc.
  destruct (doc s !! "method") as [m0|]; [|done].
  destruct (doc s !! "convergenceBtn") as [b0|]; [|done].
  simpl in *. injection Hm as Hm. injection Hc as Hc.
  rewrite Hc. apply (Hinv m0 b0); congruence.
Qed.

Lemma options_known_view s s' :
  dataset_value <$> customOptions s' = dataset_value <$> customOptions s →
  options_known s → options_known s'.
Proof.
  intros Hd Hk e He.
  assert (dataset_value e ∈ dataset_value <$> customOptions s) as Hin
    by (rewrite <- Hd; by apply list_elem_of_fmap_2).
  apply list_elem_of_fmap in Hin as (e' & Heq & He').
  rewrite Heq. by apply Hk.
Qed.

(** Every event keeps the convergence button hidden while antithetic is
    selected. *)
Lemma step_antithetic_hidden ev s s' :
  antithetic_hidden s → step ev s = Some s' → antithetic_hidden s'.
Proof.
  unfold step. destruct (enabled ev s) eqn:Hen; [|done]. intros Hinv [= <-].
  destruct ev as [id text| |inside|i| | | |i o lib_ok];
    try (apply (antithetic_hidden_views s);
         [ by apply handler_keeps_method
         | by apply handler_keeps_convergenceBtn_classes
         | done ]).
  unfold handler.
  destruct (customOption_click_effect i s) as [(Hm & Hc & _)|(e & He & Hm & Hc)].
  - by apply (antithetic_hidden_views s).
  - intros m b Hm' Hv Hb. apply Hc; [done|].
    unfold element_view in Hm. rewrite Hm' in Hm. simpl in Hm.
    rewrite to_value_string_data_value, Hv in Hm.
    destruct (dataset_value e); simpl in Hm; congruence.
Qed.

(** Every event keeps the selected method among the offered ones. *)
Lemma step_method_known ev s s' :
  options_known s → selected_method s ∈ methods → step ev s = Some s' →
  options_known s' ∧ selected_method s' ∈ methods.
Proof.
  unfold step. destruct (enabled ev s) eqn:Hen; [|done].
  intros Hopt Hsel [= <-]. split.
  { eapply options_known_view; [apply handler_keeps_dataset | done]. }
  rewrite selected_method_view in *.
  destruct ev as [id text| |inside|i| | | |i o lib_ok];
    try (by rewrite handler_keeps_method).
  unfold handler.
  destruct (customOption_click_effect i s) as [(Hm & _)|(e & He & Hm & _)].
  - by rewrite Hm.
  - rewrite Hm, to_value_string_data_value. simpl.
    destruct (Hopt e) as (d & -> & Hd); [|done].
    by eapply list_elem_of_lookup_2.
Qed.

Lemma reachable_antithetic_hidden init s :
  antithetic_hidden init → reachable init s → antithetic_hidden s.
Proof.
  intros Hinit Hreach.
  induction Hreach as [|s ev s' _ IH Hstep]; [done|].
  by eapply step_antithetic_hidden.
Qed.

Lemma reachable_method_known init s :
  options_known init → selected_method init ∈ methods → reachable init s →
  options_known s ∧ selected_method s ∈ methods.
Proof.
  intros Hopt Hsel Hreach.
  induction Hreach as [|s ev s' _ [IH1 IH2] Hstep]; [done|].
  by eapply step_method_known.
Qed.

Lemma run_reachable evs init s : run evs init = Some s → reachable init s.
Proof.
  assert (∀ s0, reachable init s0 → run evs s0 = Some s → reachable init s)
    as Hgen.
  { induction evs as [|ev evs IH]; intros s0 Hs0; simpl.
    - by intros [= <-].
    - destruct (step ev s0) as [s1|] eqn:Hstep; [|done].
      apply IH. by eapply reachable_step. }
  apply Hgen. constructor.
Qed.

(** On a page with the form fields the submit handler always gets to send
    its request, and so does the convergence handler. *)
Lemma paramsForm_submit_total s :
  Forall (λ id, is_Some (doc s !! id))
    ["simulateBtn"; "S0"; "K"; "T"; "r"; "sigma"; "steps"] →
  ∃ req s', paramsForm_submit s = (inr req, s').
Proof.
  intros Hall. repeat (apply Forall_cons in Hall as [[? ?] Hall]).
  unfold paramsForm_submit, q_or_default, method_or_default.
  destruct (doc s !! "q") eqn:?; destruct (doc s !! "method") eqn:?;
    exec; eauto.
Qed.

Lemma convergenceBtn_click_total s :
  Forall (λ id, is_Some (doc s !! id))
    ["convergenceBtn"; "S0"; "K"; "T"; "r"; "sigma"] →
  ∃ req s', convergenceBtn_click s = (inr req, s').
Proof.
  intros Hall. repeat (apply Forall_cons in Hall as [[? ?] Hall]).
  unfold convergenceBtn_click, q_or_default, method_or_default.
  destruct (doc s !! "q") eqn:?; destruct (doc s !! "method") eqn:?;
    exec; eauto.
Qed.

(** The fetch handler without a ticker returns at line 67 and leaves the
    page as it is. *)
Lemma fetchBtn_click_no_ticker s e :
  doc s !! "tickerInput" = Some e → toUpperCase (value e) = "" →
  fetchBtn_click s = (inr None, s).
Proof. intros He Hempty. unfold fetchBtn_click. exec. by rewrite Hempty. Qed.

End Invariants.

Section Resumptions.
Context {Num : Type} `{!JSNumber Num}.
Implicit Types (s : State Num) (v : Val Num) (o : Outcome Num) (ev : Event Num).

(** What a well-formed stock quote does to the form. *)
Lemma fetchBtn_resume_quote s ticker data price vol :
  quote_fields_present s → quote_of data price vol →
  let s' := (fetchBtn_resume ticker (Reply true data) s).2 in
  element_view "S0" value s' = Some (num_toFixed price 2)
  ∧ element_view "K" value s' = Some (num_toFixed price 2)
  ∧ element_view "sigma" value s' = Some (num_toFixed vol 4)
  ∧ (is_Some (doc s !! "q") → element_view "q" value s' = Some "0.0")
  ∧ alerts s' = alerts s.
Proof.
  intros ([eS0 HS0] & [esig Hsig] & [er Hr] & [eK HK]) [Hp Hv].
  destruct (get_prop_defined data _ "risk_free_rate" _ Hp) as [rr Hrr].
  destruct (get_prop_defined data _ "currency" _ Hp) as [cur Hcur].
  unfold fetchBtn_resume, try_catch_finally.
  exec. rewrite Hp, Hv, Hrr, Hcur.
  destruct (doc s !! "q") as [eq|] eqn:Hq;
    destruct (doc s !! "volSource") as [evs|] eqn:Hvs;
    destruct (doc s !! "fetchBtn") as [efb|] eqn:Hfb;
    exec; repeat split; try solve_view;
    first [ by intros [? ?] | intros _; solve_view ].
Qed.

(** The [finally] block of each async handler puts its button back. *)
Lemma resume_restores_button p o lib_ok s :
  is_Some (doc s !! (button_of p).1) →
  idle (button_of p).1 (button_of p).2 (resume p o lib_ok s).2.
Proof.
  intros Hbtn. apply elem_of_dom in Hbtn.
  assert (∀ id label s',
            id ∈ dom (doc s') →
            idle id label
              (bind (update id (with_textContent label))
                 (λ _, update id (with_disabled false)) s').2) as Hfinal.
  { intros id label s' [e He]%elem_of_dom. exec.
    eexists. split; [by solve_view|done]. }
  destruct p; unfold resume, fetchBtn_resume, paramsForm_resume,
    convergenceBtn_resume;
    (apply (try_catch_finally_ensures (λ s, dom (doc s)));
     [ stable_with frame_dom
     | intros ?; stable_with frame_dom
     | intros s' Hdom; apply Hfinal; simpl in *; by rewrite Hdom ]).
Qed.

(** A request that fails with a non-ok reply leaves the results alone and
    alerts [data.error] when that can be read. *)
Lemma paramsForm_resume_not_ok s data lib_ok :
  let s' := (paramsForm_resume (Reply false data) lib_ok s).2 in
  results_view s' = results_view s
  ∧ alerts s' = alerts s ++ match get_prop data "error" with
                            | inr e => [e]
                            | inl _ => []
                            end.
Proof.
  unfold paramsForm_resume. cbn [await]. rewrite bind_ret_l. cbn [fst snd].
  assert (stable (Num := Num) alerts
            (bind (update "simulateBtn" (with_textContent "Run Simulation"))
               (λ _, update "simulateBtn" (with_disabled false)))) as Hfinal
    by stable_with frame_field.
  split.
  - by_stable frame_results.
  - destruct (get_prop data "error") as [e|e] eqn:He.
    + erewrite try_catch_finally_caught; [|reflexivity..].
      rewrite (Hfinal _). simpl. by rewrite app_nil_r.
    + erewrite try_catch_finally_ok; [|reflexivity].
      by rewrite (Hfinal _).
Qed.

(** A request that fails by throwing: the handler logs the exception and
    runs its [finally] block. *)
Lemma resume_thrown p o lib_ok s e :
  thrown o = Some e →
  let s' := (resume p o lib_ok s).2 in
  console s' = console s ++ [e]
  ∧ results_view s' = results_view s
  ∧ alerts s' = alerts s ++ match p with
                            | PFetch _ => [VStr "Failed to connect to server"]
                            | _ => []
                            end.
Proof.
  intros Ho.
  assert (await o = throw e) as Hthrow
    by (destruct o; simpl in *; congruence).
  pose (final := λ id label : string,
          bind (Num := Num) (update id (with_textContent label))
            (λ _, update id (with_disabled false))).
  assert (∀ id label, stable console (final id label)) as Hc
    by (intros; unfold final; stable_with frame_field).
  assert (∀ id label, stable alerts (final id label)) as Ha
    by (intros; unfold final; stable_with frame_field).
  assert (∀ id label s,
            id = "simulateBtn" ∨ id = "convergenceBtn" ∨ id = "fetchBtn" →
            results_view (final id label s).2 = results_view s) as Hr
    by (intros; unfold final; by_stable frame_results).
  destruct p; unfold resume, fetchBtn_resume, paramsForm_resume,
    convergenceBtn_resume; rewrite Hthrow, bind_throw_l;
    (erewrite try_catch_finally_caught; [|reflexivity..]);
    fold (final "fetchBtn" "Fetch Data");
    fold (final "simulateBtn" "Run Simulation");
    fold (final "convergenceBtn" "Analyze Convergence");
    rewrite (Hc _ _ _), (Ha _ _ _), Hr by tauto;
    simpl; by rewrite ?app_nil_r.
Qed.

End Resumptions.

Section Suspended.
Context {Num : Type} `{!JSNumber Num}.
Implicit Types (s : State Num) (v : Val Num) (o : Outcome Num) (ev : Event Num).

Lemma appends_stable {A} P (m : M Num A) : stable pending m → appends P m.
Proof. intros Hm s. left. apply Hm. Qed.

Lemma appends_bind {A B} P (m : M Num A) (k : A → M Num B) :
  stable pending m → (∀ a, appends P (k a)) → appends P (bind m k).
Proof.
  intros Hm Hk s. unfold bind. specialize (Hm s).
  destruct (m s) as [[e|a] s1]; simpl in *; [by left|].
  rewrite <- Hm. apply Hk.
Qed.

Lemma appends_suspend {A} P p (a : A) :
  P p → appends (Num := Num) P (bind (suspend p) (λ _, ret a)).
Proof. intros HP s. right. by exists p. Qed.

Lemma fetchBtn_click_appends :
  appends (Num := Num) (λ p, (button_of p).1 = "fetchBtn") fetchBtn_click.
Proof.
  unfold fetchBtn_click.
  apply appends_bind; [stable_with frame_field|intros raw].
  destruct (String.eqb _ _); [by apply appends_stable|].
  do 2 (apply appends_bind; [stable_with frame_field|intros _]).
  by apply appends_suspend.
Qed.

Lemma paramsForm_submit_appends :
  appends (Num := Num) (λ p, (button_of p).1 = "simulateBtn") paramsForm_submit.
Proof.
  unfold paramsForm_submit.
  repeat (apply appends_bind; [solve [stable_with frame_field]|intros ?]).
  by apply appends_suspend.
Qed.

Lemma convergenceBtn_click_appends :
  appends (Num := Num) (λ p, (button_of p).1 = "convergenceBtn")
    convergenceBtn_click.
Proof.
  unfold convergenceBtn_click.
  repeat (apply appends_bind; [solve [stable_with frame_field]|intros ?]).
  by apply appends_suspend.
Qed.

Lemma appends_discard {A} P (m : M Num A) :
  appends P m → appends P (bind m (λ _, ret tt)).
Proof.
  intros Hm s. unfold bind. specialize (Hm s).
  by destruct (m s) as [[e|a] s1].
Qed.

(** A handler that suspends has a button to restore. *)
Lemma handler_pending ev s p :
  enabled ev s = true → p ∈ pending (handler ev s).2 →
  p ∈ pending s ∨ is_Some (doc s !! (button_of p).1).
Proof.
  intros Hen.
  assert (∀ (m : M Num unit) id,
            appends (λ p, (button_of p).1 = id) m →
            (pending (m s).2 ≠ pending s → is_Some (doc s !! id)) →
            p ∈ pending (m s).2 →
            p ∈ pending s ∨ is_Some (doc s !! (button_of p).1)) as Hgrow.
  { intros m id Hm Hid Hp. destruct (Hm s) as [Hsame|(p' & Hp' & Hmore)].
    - left. by rewrite <- Hsame.
    - rewrite Hmore in Hp. apply elem_of_app in Hp as [Hp|Hp]; [by left|].
      apply list_elem_of_singleton in Hp as ->. right. rewrite Hp'.
      apply Hid. rewrite Hmore. intros Heq.
      apply (f_equal length) in Heq. rewrite length_app in Heq.
      simpl in Heq. lia. }
  destruct ev as [id text| |inside|i| | | |i o lib_ok]; unfold handler.
  - intros Hp. left. revert Hp.
    by replace (pending (update id (with_value text) s).2) with (pending s)
      by (symmetry; by_stable frame_field).
  - intros Hp. left. revert Hp.
    by replace (pending (methodSelectTrigger_click s).2) with (pending s)
      by (symmetry; by_stable frame_field).
  - intros Hp. left. revert Hp.
    by replace (pending (document_click inside s).2) with (pending s)
      by (symmetry; by_stable frame_field).
  - intros Hp. left. revert Hp.
    by replace (pending (customOption_click i s).2) with (pending s)
      by (symmetry; by_stable frame_field).
  - apply (Hgrow _ "fetchBtn");
      [apply appends_discard, fetchBtn_click_appends|].
    intros _. unfold enabled, clickable in Hen.
    by destruct (doc s !! "fetchBtn").
  - apply (Hgrow _ "simulateBtn");
      [apply appends_discard, paramsForm_submit_appends|].
    intros Hne. destruct (doc s !! "simulateBtn") eqn:Hb; [done|].
    destruct Hne. unfold paramsForm_submit. by exec.
  - apply (Hgrow _ "convergenceBtn");
      [apply appends_discard, convergenceBtn_click_appends|].
    intros _. unfold enabled, clickable in Hen.
    apply andb_prop in Hen as [Hen _]. apply andb_prop in Hen as [_ Hen].
    by destruct (doc s !! "convergenceBtn").
  - destruct (pending s !! i) as [p'|] eqn:Hi; [|by left].
    assert (stable pending (resume p' o lib_ok)) as Hst
      by (destruct p'; stable_with frame_field).
    rewrite (Hst _). simpl. intros Hp. left.
    eapply elem_of_sublist; [done|apply sublist_delete].
Qed.

Lemma step_pending_have_buttons ev s s' :
  pending_have_buttons s → step ev s = Some s' → pending_have_buttons s'.
Proof.
  unfold step. destruct (enabled ev s) eqn:Hen; [|done]. intros Hinv [= <-].
  intros p Hp. apply elem_of_dom. rewrite handler_keeps_dom.
  apply elem_of_dom.
  destruct (handler_pending ev s p Hen Hp) as [Hold|Hnew]; [by apply Hinv|done].
Qed.

Lemma reachable_pending_have_buttons init s :
  loaded init → reachable init s → pending_have_buttons s.
Proof.
  intros (Hpending & _) Hreach.
  induction Hreach as [|s ev s' _ IH Hstep].
  - intros p Hp. rewrite Hpending in Hp. by apply elem_of_nil in Hp.
  - by eapply step_pending_have_buttons.
Qed.

End Suspended.

Section Claims.
Context {Num : Type} `{!JSNumber Num}.
Implicit Types (s : State Num) (v : Val Num) (o : Outcome Num) (ev : Event Num).


(** C4.  On a page whose custom options and preselected method are among
    standard, antithetic and control_variate, every request the submit
    handler sends is a POST to /api/simulate whose body has exactly the
    fields S0, K, T, r, sigma, q, steps, method, with method one of the
    three. *)
Theorem simulate_request_contract init s req s' :
  options_known init → selected_method init ∈ methods → reachable init s →
  paramsForm_submit s = (inr req, s') →
  url req = "/api/simulate" ∧ http_method req = "POST"
  ∧ field_names (body req)
    = Some ["S0"; "K"; "T"; "r"; "sigma"; "q"; "steps"; "method"]
  ∧ ∃ m, get_prop (body req) "method" = inr (VStr m) ∧ m ∈ methods.
Proof.
  intros Hopt Hsel Hreach Hreq.
  destruct (reachable_method_known _ _ Hopt Hsel Hreach) as [_ Hm].
  apply paramsForm_submit_request in Hreq
    as (eS0 & eK & eT & er & esigma & esteps & _ & _ & _ & _ & _ & _ & ->).
  repeat split; eauto.
Qed.

(** C5.  Every request the convergence handler sends is a POST to
    /api/convergence whose body has exactly the fields S0, K, T, r, sigma,
    q, method; it has no steps field. *)
Theorem convergence_request_contract s req s' :
  convergenceBtn_click s = (inr req, s') →
  url req = "/api/convergence" ∧ http_method req = "POST"
  ∧ field_names (body req)
    = Some ["S0"; "K"; "T"; "r"; "sigma"; "q"; "method"]
  ∧ get_prop (body req) "steps" = inr VUndef.
Proof.
  intros Hreq.
  apply convergenceBtn_click_request in Hreq
    as (eS0 & eK & eT & er & esigma & _ & _ & _ & _ & _ & ->).
  done.
Qed.



(** C2.  What the submit handler does with a Simulate response of non-ok
    status.  No partial result: every result field, both result sections
    and both charts stay as they were, whether the body parsed or not.
    The error message is surfaced only when the body parsed to a value
    other than null: then [data.error] is alerted, once.  A non-ok response
    whose body is not JSON is not alerted at all: [response.json()] throws
    before the status is looked at, and the catch block only logs the
    SyntaxError.  A null body is not alerted either: reading [data.error]
    throws, and the TypeError is only logged. *)
Theorem failed_simulate_shows_no_result s data lib_ok :
  (results_view (paramsForm_resume (Reply false data) lib_ok s).2
   = results_view s
   ∧ (alerts (paramsForm_resume (Reply false data) lib_ok s).2,
      console (paramsForm_resume (Reply false data) lib_ok s).2)
     = match get_prop data "error" with
       | inr e => (alerts s ++ [e], console s)
       | inl e => (alerts s, console s ++ [e])
       end)
  ∧ (results_view (paramsForm_resume (BadBody false) lib_ok s).2
     = results_view s
     ∧ alerts (paramsForm_resume (BadBody false) lib_ok s).2 = alerts s
     ∧ console (paramsForm_resume (BadBody false) lib_ok s).2
       = console s ++ [SyntaxError])
  ∧ (alerts (paramsForm_resume (Reply false VNull) lib_ok s).2 = alerts s
     ∧ console (paramsForm_resume (Reply false VNull) lib_ok s).2
       = console s ++ [TypeError]).
Proof.
  destruct (paramsForm_resume_not_ok s data lib_ok) as [Hres _].
  destruct (resume_thrown PSimulate (BadBody false) lib_ok s SyntaxError)
    as (Hcon & Hres' & Halert); [done|].
  simpl in Halert. rewrite app_nil_r in Halert.
  assert (∀ d,
            (alerts (paramsForm_resume (Reply false d) lib_ok s).2,
             console (paramsForm_resume (Reply false d) lib_ok s).2)
            = match get_prop d "error" with
              | inr e => (alerts s ++ [e], console s)
              | inl e => (alerts s, console s ++ [e])
              end) as Hlog.
  { intros d. unfold paramsForm_resume.
    rewrite (try_catch_finally_reply (λ s, (alerts s, console s)))
      by stable_with frame_field.
    cbn [fst snd]. unfold try_catch.
    by destruct (get_prop d "error") as [e|e]; exec. }
  split; [by split|]. split; [done|].
  specialize (Hlog VNull). simpl in Hlog. by injection Hlog as -> ->.
Qed.

(** C3.  A Simulate or Convergence request that fails by throwing (the
    network fails or the body is not JSON) is logged with console.error
    and nothing is alerted; no result is written.  The fetch-data handler
    alerts in the same situation. *)
Theorem thrown_failures_are_only_logged s o lib_ok ticker :
  match thrown o with
  | Some e =>
      alerts (paramsForm_resume o lib_ok s).2 = alerts s
      ∧ console (paramsForm_resume o lib_ok s).2 = console s ++ [e]
      ∧ results_view (paramsForm_resume o lib_ok s).2 = results_view s
      ∧ alerts (convergenceBtn_resume o lib_ok s).2 = alerts s
      ∧ console (convergenceBtn_resume o lib_ok s).2 = console s ++ [e]
      ∧ results_view (convergenceBtn_resume o lib_ok s).2 = results_view s
      ∧ alerts (fetchBtn_resume ticker o s).2
        = alerts s ++ [VStr "Failed to connect to server"]
  | None => True
  end.
Proof.
  destruct (thrown o) as [e|] eqn:Ho; [|done].
  destruct (resume_thrown PSimulate o lib_ok s e Ho) as (Hc1 & Hr1 & Ha1).
  destruct (resume_thrown PConvergence o lib_ok s e Ho) as (Hc2 & Hr2 & Ha2).
  destruct (resume_thrown (PFetch ticker) o lib_ok s e Ho) as (_ & _ & Ha3).
  simpl in *. rewrite app_nil_r in Ha1, Ha2. done.
Qed.

(** C9.  In every run from a freshly loaded page, when a suspended
    fetch-data, simulate or convergence handler finishes, whatever the
    outcome of its request, its button is enabled and shows its idle
    label. *)
Theorem buttons_restored_on_completion init s i p o lib_ok s' :
  loaded init → reachable init s → pending s !! i = Some p →
  step (EvSettle i o lib_ok) s = Some s' →
  match p with
  | PFetch _ => idle "fetchBtn" "Fetch Data" s'
  | PSimulate => idle "simulateBtn" "Run Simulation" s'
  | PConvergence => idle "convergenceBtn" "Analyze Convergence" s'
  end.
Proof.
  intros Hload Hreach Hp Hstep.
  pose proof (reachable_pending_have_buttons _ _ Hload Hreach p) as Hbtn.
  unfold step, enabled, handler in Hstep. rewrite Hp in Hstep.
  rewrite bool_decide_eq_true_2 in Hstep by done.
  injection Hstep as <-.
  assert (idle (button_of p).1 (button_of p).2
            (resume p o lib_ok (set_pending (delete i (pending s)) s)).2)
    as Hidle.
  { apply resume_restores_button. simpl. apply Hbtn.
    by eapply list_elem_of_lookup_2. }
  by destruct p.
Qed.

End Claims.

(** ** The theorems at work on the sample page *)

Lemma sample_page_loaded : loaded sample_page.
Proof. by repeat split. Qed.

Lemma sample_page_antithetic_hidden : antithetic_hidden sample_page.
Proof.
  intros m b Hm Hv _. vm_compute in Hm. injection Hm as <-. discriminate Hv.
Qed.

Lemma sample_page_options_known : options_known sample_page.
Proof.
  intros e He. unfold sample_page in He. simpl in He.
  repeat (apply elem_of_cons in He as [->|He];
          [eexists; split; [reflexivity|];
           repeat first [apply list_elem_of_here | apply list_elem_of_further]
          |]).
  by apply elem_of_nil in He.
Qed.

Lemma sample_page_quote_fields : quote_fields_present sample_page.
Proof. repeat split; by eexists. Qed.

(** A non-ok reply on the sample page: the message is alerted, the result
    fields keep their dashes. *)
Example sample_error_reply :
  let s' := (@paramsForm_resume Z int_number (Reply false sample_error) true
               sample_page).2 in
  alerts s' = [VStr "Invalid parameter"]
  ∧ element_view "bsCall" textContent s' = Some "-"
  ∧ element_view "simulateBtn" textContent s' = Some "Run Simulation".
Proof. by vm_compute. Qed.

(** A non-ok reply whose body is not JSON (a gateway's error page) on the
    sample page: the parse error is logged, nothing is alerted, the result
    fields keep their dashes. *)
Example sample_bad_gateway :
  let s' := (@paramsForm_resume Z int_number (BadBody false) true
               sample_page).2 in
  alerts s' = [] ∧ console s' = [SyntaxError]
  ∧ element_view "bsCall" textContent s' = Some "-"
  ∧ element_view "simulateBtn" textContent s' = Some "Run Simulation".
Proof. by vm_compute. Qed.

(** A network failure during a simulation on the sample page: one console
    entry, no alert. *)
Example sample_network_failure :
  let s' := (@paramsForm_resume Z int_number NetworkFailure true
               sample_page).2 in
  alerts s' = [] ∧ console s' = [NetworkError].
Proof. by vm_compute. Qed.


Lemma simulate_request_contract_witness :
  options_known sample_page
  ∧ selected_method sample_page ∈ methods
  ∧ @paramsForm_submit Z int_number sample_page
    = (inr sample_simulate_request,
       (@paramsForm_submit Z int_number sample_page).2)
  ∧ url sample_simulate_request = "/api/simulate"
  ∧ http_method sample_simulate_request = "POST"
  ∧ field_names (body sample_simulate_request)
    = Some ["S0"; "K"; "T"; "r"; "sigma"; "q"; "steps"; "method"]
  ∧ ∃ m, get_prop (body sample_simulate_request) "method" = inr (VStr m)
         ∧ m ∈ methods.
Proof.
  assert (selected_method sample_page ∈ methods) as Hsel
    by (vm_compute; apply list_elem_of_here).
  assert (@paramsForm_submit Z int_number sample_page
          = (inr sample_simulate_request,
             (@paramsForm_submit Z int_number sample_page).2)) as Hrun
    by (by vm_compute).
  split; [exact sample_page_options_known|]. split; [exact Hsel|].
  split; [exact Hrun|].
  exact (simulate_request_contract (JSNumber0 := int_number)
           sample_page sample_page _ _
           sample_page_options_known Hsel (reachable_init _) Hrun).
Defined.

Lemma convergence_request_contract_witness :
  @convergenceBtn_click Z int_number sample_page
  = (inr sample_convergence_request,
     (@convergenceBtn_click Z int_number sample_page).2)
  ∧ url sample_convergence_request = "/api/convergence"
  ∧ http_method sample_convergence_request = "POST"
  ∧ field_names (body sample_convergence_request)
    = Some ["S0"; "K"; "T"; "r"; "sigma"; "q"; "method"]
  ∧ get_prop (body sample_convergence_request) "steps" = inr VUndef.
Proof.
  assert (@convergenceBtn_click Z int_number sample_page
          = (inr sample_convergence_request,
             (@convergenceBtn_click Z int_number sample_page).2)) as Hrun
    by (by vm_compute).
  split; [exact Hrun|].
  exact (convergence_request_contract (JSNumber0 := int_number)
           sample_page _ _ Hrun).
Defined.


Lemma buttons_restored_on_completion_witness :
  loaded sample_page
  ∧ reachable (JSNumber0 := int_number) sample_page fetching_page
  ∧ pending fetching_page !! 0 = Some (PFetch "MSFT")
  ∧ ∃ s', @step Z int_number (EvSettle 0 NetworkFailure true) fetching_page
          = Some s'
          ∧ idle "fetchBtn" "Fetch Data" s'.
Proof.
  assert (reachable (JSNumber0 := int_number) sample_page fetching_page)
    as Hreach by (apply (run_reachable fetch_events); by vm_compute).
  assert (pending fetching_page !! 0 = Some (PFetch "MSFT")) as Hp
    by (by vm_compute).
  split; [exact sample_page_loaded|]. split; [exact Hreach|].
  split; [exact Hp|].
  eexists. split; [by vm_compute|].
  refine (buttons_restored_on_completion (JSNumber0 := int_number)
            sample_page fetching_page 0 (PFetch "MSFT") NetworkFailure true _
            sample_page_loaded Hreach Hp _).
  by vm_compute.
Defined.


(** * More of the script

    The dropdown, the requests under way, what a pricing result and a
    stock quote put on the page, and how the handlers compose. *)

Section ViewFacts.
Context {Num : Type} `{!JSNumber Num}.
Implicit Types (s : State Num) (v : Val Num) (o : Outcome Num) (ev : Event Num).

(** Frames for views that look elements up by id. *)
Lemma displayed_update id (f : Element → Element) s e :
  id ∉ result_fields →
  displayed (set_doc (<[id := f e]> (doc s)) s) = displayed s.
Proof.
  intros Hid. unfold displayed.
  apply list_fmap_ext. intros i id' Hin%list_elem_of_lookup_2.
  unfold element_view. cbn [doc set_doc].
  rewrite lookup_insert_ne; [done|]. by intros ->.
Qed.

Lemma form_values_update id (f : Element → Element) s e :
  (∀ e, value (f e) = value e) → doc s !! id = Some e →
  form_values (set_doc (<[id := f e]> (doc s)) s) = form_values s.
Proof.
  intros Hf He. unfold form_values. simpl.
  rewrite fmap_insert, Hf. apply insert_id. by rewrite lookup_fmap, He.
Qed.

Lemma displayed_results_view s1 s2 :
  results_view s1 = results_view s2 →
  displayed s1 = displayed s2 ∧ chartInstance s1 = chartInstance s2.
Proof.
  intros Heq.
  assert (∀ s, displayed s
               = (λ o : option Element, textContent <$> o)
                 <$> (results_view s).1.1.1.1) as Hd by reflexivity.
  assert (∀ s, chartInstance s = (results_view s).1.2) as Hc by reflexivity.
  by rewrite !Hd, !Hc, Heq.
Qed.

Lemma same_dom_is_Some s s' id :
  dom (doc s') = dom (doc s) → is_Some (doc s !! id) → is_Some (doc s' !! id).
Proof. intros Hdom Hid. apply elem_of_dom. rewrite Hdom. by apply elem_of_dom. Qed.

Lemma busy_face id label s :
  busy id label s ↔ element_view id face s = Some (label, true).
Proof.
  unfold busy, element_view, face. split.
  - intros (b & -> & <- & <-). done.
  - destruct (doc s !! id) as [b|]; [|done]. simpl. intros [= <- ?]. eauto.
Qed.

Lemma classList_toggle_twice c e :
  classList_toggle c (classList_toggle c e) = e.
Proof.
  destruct e as [v t cl d dv]. unfold classList_toggle. simpl.
  destruct (decide (c ∈ cl)) as [Hin|Hout]; simpl.
  - rewrite decide_False
      by (rewrite elem_of_difference, elem_of_singleton; tauto).
    unfold classList_add, with_classList.
    simpl. f_equal. apply set_eq. intros x.
    rewrite elem_of_union, elem_of_singleton, elem_of_difference,
      elem_of_singleton.
    destruct (decide (x = c)) as [->|]; tauto.
  - rewrite decide_True
      by (rewrite elem_of_union, elem_of_singleton; tauto).
    unfold classList_remove, with_classList.
    simpl. f_equal. apply set_eq. intros x.
    rewrite elem_of_difference, elem_of_union, !elem_of_singleton.
    split; [tauto|]. intros Hx. split; [tauto|]. by intros ->.
Qed.

Lemma classList_open_close e :
  "open" ∉ classList e →
  classList_remove "open" (classList_toggle "open" e) = e.
Proof.
  intros Hout. destruct e as [v t cl d dv]. unfold classList_toggle. simpl in *.
  rewrite decide_False by done.
  unfold classList_remove, classList_add, with_classList. simpl. f_equal.
  apply set_eq. intros x.
  rewrite elem_of_difference, elem_of_union, !elem_of_singleton.
  split; [tauto|]. intros Hx. split; [tauto|]. by intros ->.
Qed.

Lemma filter_delete_miss (P : Pending → Prop) `{!∀ p, Decision (P p)} (l : list Pending) (i : nat) p :
  l !! i = Some p → ¬ P p → filter P (delete i l) = filter P l.
Proof.
  revert i. induction l as [|x l IH]; intros [|i] Hi Hp; simpl in *; try done.
  - injection Hi as ->. by rewrite filter_cons_False.
  - rewrite !filter_cons. by rewrite (IH i).
Qed.

Lemma filter_delete_hit (P : Pending → Prop) `{!∀ p, Decision (P p)} (l : list Pending) (i : nat) p :
  l !! i = Some p → P p → S (length (filter P (delete i l))) = length (filter P l).
Proof.
  revert i. induction l as [|x l IH]; intros [|i] Hi Hp; simpl in *; try done.
  - injection Hi as ->. by rewrite filter_cons_True.
  - rewrite !filter_cons. destruct (decide (P x)); simpl; by rewrite <- (IH i).
Qed.

End ViewFacts.

(** Frames for views that look up elements other than the one written. *)
Ltac frame_lookup :=
  first
    [ apply stable_update; intros ? ? ?;
      first [ apply displayed_update; unfold result_fields;
              rewrite !elem_of_cons, elem_of_nil;
              intros [?|[?|[?|[?|[?|[?|[]]]]]]]; done
            | unfold shown, element_view; cbn [doc set_doc];
              by rewrite lookup_insert_ne by done
            | reflexivity ]
    | frame_other ].

(** Frames for the form values: writes to text, classes and [disabled]. *)
Ltac frame_values :=
  first
    [ apply stable_update; intros ? ? ?; apply form_values_update;
      [ intros ?; first [ done | unfold classList_toggle; by case_decide ]
      | assumption ]
    | frame_other ].

(** Look through the [finally] block of a resumed handler at a view it
    does not touch. *)
Tactic Notation "skip_finally" uconstr(view) "by" tactic3(prim) :=
  unfold fetchBtn_resume, paramsForm_resume, convergenceBtn_resume;
  rewrite (try_catch_finally_reply view)
    by (apply stable_bind; [|intros ?]; prim);
  cbn [fst snd].

(** ** The method dropdown (lines 27-62) *)

Section Dropdown.
Context {Num : Type} `{!JSNumber Num}.
Implicit Types (s : State Num) (v : Val Num) (o : Outcome Num) (ev : Event Num).

(** X1.  Two clicks on the dropdown trigger put the page back exactly as
    it was: toggling the class [open] twice is the identity. *)
Theorem trigger_click_twice_restores s :
  enabled EvTriggerClick s = true →
  run [EvTriggerClick; EvTriggerClick] s = Some s.
Proof.
  intros Hen. unfold enabled, exists_el in Hen.
  apply bool_decide_eq_true in Hen as [e He].
  assert (step EvTriggerClick s
          = Some (set_doc (<["methodSelectTrigger" := classList_toggle "open" e]>
                             (doc s)) s)) as Hstep1.
  { unfold step, enabled, exists_el, handler, methodSelectTrigger_click.
    rewrite bool_decide_eq_true_2 by (by rewrite He).
    by erewrite update_ok. }
  simpl. rewrite Hstep1.
  unfold step, enabled, exists_el, handler, methodSelectTrigger_click.
  rewrite bool_decide_eq_true_2 by (simpl; by rewrite lookup_insert_eq).
  erewrite update_ok by (simpl; apply lookup_insert_eq).
  simpl. rewrite insert_insert_eq, classList_toggle_twice, insert_id by done.
  by destruct s.
Qed.

(** X2.  Opening the closed dropdown and then clicking elsewhere on the
    page puts the page back as it was; the click on the trigger itself, as
    it bubbles to the document, leaves the dropdown open. *)
Theorem outside_click_closes_dropdown s t :
  doc s !! "methodSelectTrigger" = Some t → "open" ∉ classList t →
  ∃ s1, run [EvTriggerClick; EvDocumentClick true] s = Some s1
        ∧ (∃ t1, doc s1 !! "methodSelectTrigger" = Some t1
                 ∧ "open" ∈ classList t1)
        ∧ run [EvDocumentClick false] s1 = Some s.
Proof.
  intros Ht Hclosed. cbn [run]. unfold step, enabled, exists_el.
  rewrite bool_decide_eq_true_2 by eauto.
  unfold handler, methodSelectTrigger_click, document_click.
  exec. cbn [negb andb when]. eexists. split; [done|]. split.
  - eexists. split; [apply lookup_insert_eq|].
    unfold classList_toggle. rewrite decide_False by done. simpl.
    apply elem_of_union_l. by apply elem_of_singleton.
  - exec. cbn [negb andb when]. exec.
    rewrite insert_insert_eq, classList_open_close, insert_id by done.
    by destruct s.
Qed.

(** X3.  On a page with the trigger, its label and the method input, a
    click on the [i]-th option runs to its end; afterwards that option and
    no other carries [selected], the option texts are unchanged, the
    trigger label shows the option's text, the method input holds the
    option's [data-value] (the text "undefined" without one) and the
    dropdown is closed. *)
Theorem option_click_selects_exclusively i s e et l em :
  customOptions s !! i = Some e →
  doc s !! "methodSelectTrigger" = Some et → triggerLabel s = Some l →
  doc s !! "method" = Some em →
  let r := customOption_click i s in
  r.1 = inr tt
  ∧ (∀ j e', customOptions r.2 !! j = Some e' →
             ("selected" ∈ classList e' ↔ j = i))
  ∧ textContent <$> customOptions r.2 = textContent <$> customOptions s
  ∧ textContent <$> triggerLabel r.2 = Some (textContent e)
  ∧ selected_method r.2 = default "undefined" (dataset_value e)
  ∧ (∀ t, doc r.2 !! "methodSelectTrigger" = Some t → "open" ∉ classList t).
Proof.
  intros He Het Hl Hem r.
  assert (r = customOption_click i s) as Hr by done.
  clearbody r. revert Hr. unfold customOption_click. exec.
  erewrite bind_ok.
  2: { eapply update_option_ok. simpl. by rewrite list_lookup_fmap, He. }
  assert (∀ l : list Element, l !! i = Some (classList_remove "selected" e) →
            <[i:=classList_add "selected" (classList_remove "selected" e)]> l !! i
            = Some (classList_add "selected" (classList_remove "selected" e)))
    as Hi.
  { intros l0 Hl0. apply list_lookup_insert_eq. by eapply lookup_lt_Some. }
  erewrite bind_ok.
  2: { eapply read_option_ok. simpl. apply Hi. by rewrite list_lookup_fmap, He. }
  erewrite bind_ok by (by eapply update_triggerLabel_ok).
  erewrite bind_ok.
  2: { eapply read_option_ok. simpl. apply Hi. by rewrite list_lookup_fmap, He. }
  change (data_value_of (classList_add "selected" (classList_remove "selected" e)))
    with (data_value_of (Num := Num) e).
  assert (∀ s' : State Num,
      customOptions s'
      = <[i:=classList_add "selected" (classList_remove "selected" e)]>
          (classList_remove "selected" <$> customOptions s) →
      (∀ j e', customOptions s' !! j = Some e' →
               ("selected" ∈ classList e' ↔ j = i))
      ∧ textContent <$> customOptions s' = textContent <$> customOptions s)
    as Hopts.
  { intros s' ->. split.
    - intros j e' Hj. destruct (decide (j = i)) as [->|Hne].
      + rewrite Hi in Hj by (by rewrite list_lookup_fmap, He).
        injection Hj as <-. simpl. split; [done|]. intros _.
        apply elem_of_union_l. by apply elem_of_singleton.
      + rewrite list_lookup_insert_ne, list_lookup_fmap in Hj by done.
        destruct (customOptions s !! j) as [e0|]; [|done].
        injection Hj as <-. simpl. split; [|done].
        intros [_ Hn]%elem_of_difference. destruct Hn.
        by apply elem_of_singleton.
    - rewrite list_fmap_insert. simpl.
      rewrite <- list_fmap_compose.
      apply list_insert_id. rewrite list_lookup_fmap, He. done. }
  assert (∀ cl : gset string, "open" ∉ cl ∖ {["open"]}) as Hopen.
  { intros cl [_ Hn]%elem_of_difference. destruct Hn. by apply elem_of_singleton. }
  destruct (doc s !! "convergenceBtn") as [eb|] eqn:Heb;
    [destruct (strict_eq_string (data_value_of e) "antithetic") eqn:Hanti|];
    exec; intros ->; (split; [done|]);
    (match goal with
     | |- context [textContent <$> customOptions ?F] =>
         destruct (Hopts F eq_refl) as [H1 H2]
     end);
    (split; [exact H1|]); (split; [exact H2|]); (split; [done|]);
    (split;
     [ unfold selected_method; state_simpl;
       rewrite !lookup_insert_ne, lookup_insert_eq by done; simpl;
       apply to_value_string_data_value
     | intros t; state_simpl; rewrite lookup_insert_eq; intros [= <-];
       apply Hopen ]).
Qed.

End Dropdown.

(** ** The click on the fetch button (lines 65-77) *)

Section Fetching.
Context {Num : Type} `{!JSNumber Num}.
Implicit Types (s : State Num) (v : Val Num) (o : Outcome Num) (ev : Event Num).

(** With a ticker typed in, a click on the fetch button suspends one
    handler that has captured the ticker in upper case. *)
Lemma fetchBtn_click_suspends s e :
  enabled EvFetchClick s = true →
  doc s !! "tickerInput" = Some e → value e ≠ "" →
  pending (fetchBtn_click s).2 = pending s ++ [PFetch (toUpperCase (value e))].
Proof.
  intros Hen He Hne. unfold enabled, clickable in Hen.
  destruct (doc s !! "fetchBtn") as [b|] eqn:Hb; [|done].
  unfold fetchBtn_click. exec.
  destruct (String.eqb (toUpperCase (value e)) "") eqn:Heq.
  { apply String.eqb_eq in Heq.
    apply (proj1 (toUpperCase_empty _)) in Heq. by destruct Hne. }
  by exec.
Qed.

(** X4.  With a ticker typed in, a click on the fetch button posts the
    ticker, upper-cased by the runtime's [toUpperCase], to
    /api/get-stock-data, leaves the button disabled with the label
    "Loading...", and suspends one handler that has captured the
    upper-cased ticker. *)
Theorem fetch_click_sends_ticker s e b :
  doc s !! "tickerInput" = Some e → doc s !! "fetchBtn" = Some b →
  value e ≠ "" →
  (fetchBtn_click s).1
  = inr (Some (mkRequest "/api/get-stock-data" "POST" json_headers
                 (VObj [("ticker", VStr (toUpperCase (value e)))])))
  ∧ busy "fetchBtn" "Loading..." (fetchBtn_click s).2
  ∧ pending (fetchBtn_click s).2
    = pending s ++ [PFetch (toUpperCase (value e))].
Proof.
  intros He Hb Hne. unfold fetchBtn_click. exec.
  destruct (String.eqb (toUpperCase (value e)) "") eqn:Heq.
  { apply String.eqb_eq in Heq.
    apply (proj1 (toUpperCase_empty _)) in Heq. by destruct Hne. }
  exec. repeat split.
  eexists. split; [by solve_view|done].
Qed.

(** X5.  With the ticker field empty, a click on the fetch button sends
    nothing and leaves the whole page as it was: no label change, nothing
    suspended. *)
Theorem fetch_click_without_ticker s e :
  enabled EvFetchClick s = true →
  doc s !! "tickerInput" = Some e → value e = "" →
  step EvFetchClick s = Some s ∧ (fetchBtn_click s).1 = inr None.
Proof.
  intros Hen He Hempty.
  assert (fetchBtn_click s = (inr None, s)) as Hrun
    by (apply (fetchBtn_click_no_ticker s e); [done|by apply toUpperCase_empty]).
  unfold step. rewrite Hen. unfold handler, bind. by rewrite Hrun.
Qed.

End Fetching.

(** ** Requests under way *)

Section InFlight.
Context {Num : Type} `{!JSNumber Num}.
Implicit Types (s : State Num) (v : Val Num) (o : Outcome Num) (ev : Event Num).

(** The face of a button is only changed by its own handler. *)
Lemma handler_keeps_face id ev s :
  id = "fetchBtn" ∨ id = "convergenceBtn" →
  match ev with
  | EvFetchClick => id ≠ "fetchBtn"
  | EvConvergenceClick => id ≠ "convergenceBtn"
  | EvSettle i _ _ =>
      ∀ p, pending s !! i = Some p → (button_of p).1 ≠ id
  | _ => True
  end →
  element_view id face (handler ev s).2 = element_view id face s.
Proof.
  intros Hid Hev.
  destruct ev as [id' text| |inside|i| | | |i o lib_ok]; unfold handler.
  - destruct Hid as [-> | ->]; by_stable frame_element.
  - destruct Hid as [-> | ->]; by_stable frame_element.
  - destruct Hid as [-> | ->]; by_stable frame_element.
  - destruct Hid as [-> | ->]; by_stable frame_element.
  - destruct Hid as [-> | ->]; [done|]. by_stable frame_element.
  - destruct Hid as [-> | ->]; by_stable frame_element.
  - destruct Hid as [-> | ->]; [|done]. by_stable frame_element.
  - destruct (pending s !! i) as [p|] eqn:Hp; [|done].
    specialize (Hev p eq_refl).
    assert (stable (element_view id face) (resume p o lib_ok)) as Hst.
    { destruct Hid as [-> | ->]; destruct p; try done;
        stable_with frame_element. }
    by rewrite (Hst _).
Qed.

Lemma in_flight_append id s s' p :
  pending s' = pending s ++ [p] → (button_of p).1 ≠ id →
  in_flight id s' = in_flight id s.
Proof.
  unfold in_flight. intros -> Hp.
  by rewrite filter_app, filter_cons_False, filter_nil, app_nil_r.
Qed.

(** A click on the fetch button either sends nothing and leaves the button
    alone, or suspends one fetch handler and leaves the button busy. *)
Lemma fetchBtn_click_cases s b :
  doc s !! "fetchBtn" = Some b →
  (pending (fetchBtn_click s).2 = pending s
   ∧ element_view "fetchBtn" face (fetchBtn_click s).2
     = element_view "fetchBtn" face s)
  ∨ (∃ t, pending (fetchBtn_click s).2 = pending s ++ [PFetch t]
          ∧ busy "fetchBtn" "Loading..." (fetchBtn_click s).2).
Proof.
  intros Hb. unfold fetchBtn_click.
  destruct (doc s !! "tickerInput") as [e|] eqn:He; exec; [|by left].
  destruct (String.eqb (toUpperCase (value e)) ""); exec; [by left|].
  right. eexists. split; [done|]. eexists. split; [by solve_view|done].
Qed.

(** A click on the convergence button leaves it busy, with or without a
    request. *)
Lemma convergenceBtn_click_busy s b :
  doc s !! "convergenceBtn" = Some b →
  busy "convergenceBtn" "Analyzing..." (convergenceBtn_click s).2.
Proof.
  intros Hb. apply busy_face. unfold convergenceBtn_click.
  do 2 (erewrite bind_ok by exec_prim).
  match goal with
  | |- element_view _ _ (?m ?s2).2 = _ =>
      transitivity (element_view "convergenceBtn" face s2);
      [by_stable frame_element|by solve_view]
  end.
Qed.

Lemma discard_state {A} (m : M Num A) s :
  (bind m (λ _, ret tt) s).2 = (m s).2.
Proof. unfold bind. by destruct (m s) as [[?|?] ?]. Qed.

Lemma appends_in_flight {A} id P (m : M Num A) s :
  appends P m → (∀ p, P p → (button_of p).1 ≠ id) →
  in_flight id (m s).2 = in_flight id s.
Proof.
  intros Hm HP. destruct (Hm s) as [Hp|(p & Hp & Hpend)].
  - unfold in_flight. by rewrite Hp.
  - eapply in_flight_append; [done|]. by apply HP.
Qed.

(** An own click starts at most one request, and only from an idle
    button. *)
Lemma own_click id (m : M Num unit) s :
  appends (λ p, (button_of p).1 = id) m →
  in_flight id s = [] →
  (pending (m s).2 ≠ pending s → busy id (loading_label id) (m s).2) →
  one_request id (m s).2.
Proof.
  intros Hm Hnone Hb. destruct (Hm s) as [Hp|(p & Hp & Hpend)].
  - split; unfold in_flight in *; rewrite Hp, Hnone; [simpl; lia|done].
  - assert (in_flight id (m s).2 = [p]) as Hone.
    { unfold in_flight in *.
      by rewrite Hpend, filter_app, Hnone, filter_cons_True. }
    split; rewrite Hone; [simpl; lia|]. intros _. apply Hb.
    rewrite Hpend. intros Heq. apply (f_equal length) in Heq.
    rewrite length_app in Heq. simpl in Heq. lia.
Qed.

Lemma step_one_request id ev s s' :
  id = "fetchBtn" ∨ id = "convergenceBtn" →
  one_request id s → step ev s = Some s' → one_request id s'.
Proof.
  intros Hid [Hle Hbusy]. pose proof Hid as Hid'. unfold step.
  destruct (enabled ev s) eqn:Hen; [|done]. intros [= <-].
  assert (in_flight id (handler ev s).2 = in_flight id s →
          element_view id face (handler ev s).2 = element_view id face s →
          one_request id (handler ev s).2) as Hsame.
  { intros Hp Hf. split; rewrite Hp; [done|].
    intros Hne. apply busy_face. rewrite Hf. by apply busy_face, Hbusy. }
  assert (∀ (m : M Num unit),
            stable pending m → in_flight id (m s).2 = in_flight id s) as Hstable.
  { intros m Hm. unfold in_flight. by rewrite (Hm _). }
  assert (∀ b, doc s !! id = Some b → disabled b = false →
               in_flight id s = []) as Hidle.
  { intros b Hb Hd. destruct (in_flight id s) eqn:Hl; [done|].
    destruct Hbusy as (b' & Hb' & _ & Hd'); [done|]. congruence. }
  destruct ev as [id' text| |inside|i| | | |i o lib_ok].
  - apply Hsame; [|by apply handler_keeps_face].
    apply Hstable. unfold handler. intros ?. by_stable frame_field.
  - apply Hsame; [|by apply handler_keeps_face].
    apply Hstable. unfold handler. intros ?. by_stable frame_field.
  - apply Hsame; [|by apply handler_keeps_face].
    apply Hstable. unfold handler. intros ?. by_stable frame_field.
  - apply Hsame; [|by apply handler_keeps_face].
    apply Hstable. unfold handler. intros ?. by_stable frame_field.
  - (* fetch click *)
    unfold enabled, clickable in Hen.
    destruct (doc s !! "fetchBtn") as [b|] eqn:Hb; [|done].
    apply negb_true_iff in Hen.
    destruct Hid' as [-> | ->].
    + unfold handler. apply own_click.
      * apply appends_discard, fetchBtn_click_appends.
      * by apply (Hidle b).
      * rewrite discard_state.
        destruct (fetchBtn_click_cases s b Hb) as [[Hp _]|(t & _ & Hb')];
          [done|by intros _].
    + apply Hsame; [|by apply handler_keeps_face].
      unfold handler.
      apply (appends_in_flight _ (λ p, (button_of p).1 = "fetchBtn"));
        [apply appends_discard, fetchBtn_click_appends|].
      by intros p ->.
  - (* submit *)
    apply Hsame; [|by apply handler_keeps_face].
    unfold handler.
    apply (appends_in_flight _ (λ p, (button_of p).1 = "simulateBtn"));
      [apply appends_discard, paramsForm_submit_appends|].
    intros p ->. by destruct Hid' as [-> | ->].
  - (* convergence click *)
    unfold enabled, clickable in Hen.
    apply andb_prop in Hen as [Hen _]. apply andb_prop in Hen as [_ Hen].
    destruct (doc s !! "convergenceBtn") as [b|] eqn:Hb; [|done].
    apply negb_true_iff in Hen.
    destruct Hid' as [-> | ->].
    + apply Hsame; [|by apply handler_keeps_face].
      unfold handler.
      apply (appends_in_flight _ (λ p, (button_of p).1 = "convergenceBtn"));
        [apply appends_discard, convergenceBtn_click_appends|].
      by intros p ->.
    + unfold handler. apply own_click.
      * apply appends_discard, convergenceBtn_click_appends.
      * by apply (Hidle b).
      * rewrite discard_state. intros _.
        by apply (convergenceBtn_click_busy s b).
  - (* a handler resumes *)
    destruct (pending s !! i) as [p|] eqn:Hp;
      [|apply Hsame; unfold handler; by rewrite Hp].
    unfold handler. rewrite Hp.
    assert (stable pending (resume p o lib_ok)) as Hst
      by (destruct p; stable_with frame_field).
    destruct (decide ((button_of p).1 = id)) as [Hown|Hother].
    + assert (in_flight id
                (resume p o lib_ok (set_pending (delete i (pending s)) s)).2
              = []) as Hnone.
      { unfold in_flight. rewrite (Hst _). simpl.
        pose proof (filter_delete_hit (λ p, (button_of p).1 = id)
                      (pending s) i p Hp Hown) as Hlen.
        unfold in_flight in Hle.
        destruct (filter _ (delete i (pending s))); [done|].
        simpl in Hlen. lia. }
      split; rewrite Hnone; [simpl; lia|done].
    + pose proof (handler_keeps_face id (EvSettle i o lib_ok) s Hid) as Hface.
      unfold handler in Hface. rewrite Hp in Hface.
      assert (in_flight id
                (resume p o lib_ok (set_pending (delete i (pending s)) s)).2
              = in_flight id s) as Hsamep.
      { unfold in_flight. rewrite (Hst _). simpl.
        by apply (filter_delete_miss _ _ i p). }
      split; rewrite Hsamep; [done|].
      intros Hne. apply busy_face. rewrite Hface.
      * by apply busy_face, Hbusy.
      * intros p' [= <-]. done.
Qed.

(** X6.  In every run from a freshly loaded page, at most one stock-data
    request and at most one convergence request are under way, and while
    one is, its button is disabled and shows its loading label. *)
Theorem one_request_at_a_time init s :
  loaded init → reachable init s →
  one_request "fetchBtn" s ∧ one_request "convergenceBtn" s.
Proof.
  intros (Hpending & _) Hreach.
  induction Hreach as [|s ev s' _ [IH1 IH2] Hstep].
  - unfold one_request, in_flight. rewrite Hpending. simpl.
    split; (split; [lia|done]).
  - split; eapply step_one_request; eauto.
Qed.

End InFlight.

(** ** Pricing results and charts (lines 133-311) *)

Section Results.
Context {Num : Type} `{!JSNumber Num}.
Implicit Types (s : State Num) (v : Val Num) (o : Outcome Num) (ev : Event Num).

Lemma displayResults_result s data p lib_ok mc steps paths :
  Forall (λ id, is_Some (doc s !! id)) result_elements →
  prices_of data p →
  get_prop data "mc" = inr mc → get_prop mc "steps" = inr steps →
  get_prop mc "paths" = inr paths →
  let s' := (try_catch (displayResults lib_ok data) console_error s).2 in
  displayed s' = price_texts (currentCurrency s) p
  ∧ shown "results" s' = true
  ∧ (∀ c, doc s' !! "convergenceSection" = Some c → "hidden" ∈ classList c)
  ∧ alerts s' = alerts s
  ∧ (chartInstance s', console s')
    = match paths with
      | VArr items =>
          if lib_ok
          then (Some (mkChart "Monte Carlo Sample Paths (First 20)" steps
                        (imap (λ index path,
                                 ("Path " +:+ pretty (index + 1), path))
                           items) false),
                console s)
          else (destroy <$> chartInstance s, console s ++ [ChartError])
      | _ => (destroy <$> chartInstance s, console s ++ [TypeError])
      end.
Proof.
  intros Hall (bs & mc' & Hbs & Hmc & H1 & H2 & H3 & H4 & H5 & H6)
    Hmc' Hsteps Hpaths.
  assert (mc' = mc) as -> by congruence. clear Hmc'.
  unfold result_elements, result_fields in Hall.
  repeat (apply Forall_cons in Hall as [[? ?] Hall]).
  unfold displayResults, format, stderr_text, renderChart, try_catch.
  destruct (doc s !! "convergenceSection") as [cs|] eqn:Hcs.
  all: exec; rewrite Hbs; exec; rewrite H1; exec.
  all: rewrite ?H2, ?Hmc, ?H3, ?H4, ?H5, ?H6; exec.
  all: rewrite ?H2, ?Hmc, ?H3, ?H4, ?H5, ?H6, ?Hsteps, ?Hpaths; exec.
  all: match goal with
       | |- context [bind (lift _) _ ?st] => set (s1 := st)
       end.
  all: assert (displayed s1 = price_texts (currentCurrency s) p) as Hd
         by (unfold displayed, price_texts, result_fields, s1; simpl;
             repeat f_equal; solve_view).
  all: assert (shown "results" s1 = true) as Hr
         by (unfold shown, s1; state_simpl;
             repeat (rewrite lookup_insert_ne by done);
             rewrite lookup_insert_eq; apply bool_decide_eq_true_2;
             simpl; rewrite elem_of_difference, elem_of_singleton; tauto).
  all: assert (∀ c, doc s1 !! "convergenceSection" = Some c
                    → "hidden" ∈ classList c) as Hc
         by (intros c; unfold s1; state_simpl;
             repeat (rewrite lookup_insert_ne by done);
             rewrite ?lookup_insert_eq; intros ?; simplify_eq; simpl;
             rewrite ?elem_of_union, ?elem_of_singleton; tauto).
  all: assert (alerts s1 = alerts s ∧ console s1 = console s
               ∧ chartInstance s1 = destroy <$> chartInstance s)
         as (Ha & Hcon & Hch) by done.
  all: clearbody s1.
  all: destruct paths, lib_ok; simpl; rewrite ?Hcon, ?Hch;
         (split; [exact Hd|]); (split; [exact Hr|]); by repeat split.
Qed.

(** Views the [finally] block of the submit handler does not touch. *)
Lemma paramsForm_resume_view {X} (view : State Num → X) data lib_ok s :
  (∀ f, stable view (update "simulateBtn" f)) →
  view (paramsForm_resume (Reply true data) lib_ok s).2
  = view (try_catch (displayResults lib_ok data) console_error s).2.
Proof.
  intros Hf. unfold paramsForm_resume.
  rewrite try_catch_finally_view; [done|].
  apply stable_bind; [apply Hf|intros; apply Hf].
Qed.

Lemma convergenceBtn_resume_view {X} (view : State Num → X) data lib_ok s :
  (∀ f, stable view (update "convergenceBtn" f)) →
  view (convergenceBtn_resume (Reply true data) lib_ok s).2
  = view (try_catch
            (bind (present "convergenceSection") (λ has_section,
               bind (when has_section
                       (update "convergenceSection"
                          (classList_remove "hidden")))
                 (λ _, renderConvergenceChart lib_ok data)))
            console_error s).2.
Proof.
  intros Hf. unfold convergenceBtn_resume.
  rewrite try_catch_finally_view; [done|].
  apply stable_bind; [apply Hf|intros; apply Hf].
Qed.

End Results.

Tactic Notation "resume_view" uconstr(view) :=
  first [ rewrite (paramsForm_resume_view view) by (intros; frame_lookup)
        | rewrite (convergenceBtn_resume_view view) by (intros; frame_lookup) ].

Section ResultsShown.
Context {Num : Type} `{!JSNumber Num}.
Implicit Types (s : State Num) (v : Val Num) (o : Outcome Num) (ev : Event Num).




(** X10.  The displayed prices and the path chart change only when a
    simulate request is answered with an ok reply: every other event
    leaves them as they are. *)
Theorem prices_change_only_on_simulate_reply ev s :
  enabled ev s = true →
  (∀ i lib_ok data,
     ev = EvSettle i (Reply true data) lib_ok →
     pending s !! i ≠ Some PSimulate) →
  displayed (handler ev s).2 = displayed s
  ∧ chartInstance (handler ev s).2 = chartInstance s.
Proof.
  intros Hen Hev.
  destruct ev as [id text| |inside|i| | | |i o lib_ok]; unfold handler.
  - apply andb_prop in Hen as [Hid _]. apply bool_decide_eq_true in Hid.
    split; [|by_stable frame_field].
    unfold editable in Hid.
    repeat (apply elem_of_cons in Hid as [->|Hid];
            [by_stable frame_lookup|]).
    by apply elem_of_nil in Hid.
  - split; by_stable frame_lookup.
  - split; by_stable frame_lookup.
  - split; by_stable frame_lookup.
  - split; by_stable frame_lookup.
  - split; by_stable frame_lookup.
  - split; by_stable frame_lookup.
  - destruct (pending s !! i) as [p|] eqn:Hp; [|done].
    set (s0 := set_pending (delete i (pending s)) s).
    change (displayed s) with (displayed s0).
    change (chartInstance s) with (chartInstance s0).
    destruct p as [ticker| |].
    + split; by_stable frame_lookup.
    + apply displayed_results_view.
      destruct o as [|ok|[] data].
      * by apply (resume_thrown PSimulate NetworkFailure lib_ok _ NetworkError).
      * by apply (resume_thrown PSimulate (BadBody ok) lib_ok _ SyntaxError).
      * by destruct (Hev i lib_ok data).
      * apply paramsForm_resume_not_ok.
    + split; by_stable frame_lookup.
Qed.

(** X11.  An ok convergence reply, on a page with the convergence canvas:
    the convergence section (if any) is shown; the displayed prices and the
    path chart stay; nothing is alerted; when the chart library works the
    convergence chart is a fresh chart over [data.x] with the datasets
    "Monte Carlo Estimate" ([data.y]) and "Black-Scholes Price"
    ([data.bs_line]); when it throws, the error is logged and the instance
    is left pointing at the destroyed previous chart. *)
Theorem convergence_reply_drawn s data x y bs_line lib_ok :
  is_Some (doc s !! "convergenceChart") →
  get_prop data "x" = inr x → get_prop data "y" = inr y →
  get_prop data "bs_line" = inr bs_line →
  let s' := (convergenceBtn_resume (Reply true data) lib_ok s).2 in
  (∀ c, doc s' !! "convergenceSection" = Some c → "hidden" ∉ classList c)
  ∧ displayed s' = displayed s
  ∧ chartInstance s' = chartInstance s
  ∧ alerts s' = alerts s
  ∧ (convergenceChartInstance s', console s')
    = if lib_ok
      then (Some (mkChart "Convergence Check: Price vs Simulations" x
                    [("Monte Carlo Estimate", y);
                     ("Black-Scholes Price", bs_line)] false),
            console s)
      else (destroy <$> convergenceChartInstance s, console s ++ [ChartError]).
Proof.
  intros [ec Hec] Hx Hy Hbs s'. unfold s'. clear s'.
  split; [|split; [by_stable frame_lookup|split; [by_stable frame_lookup|]]].
  - intros c. resume_view (λ s, doc s !! "convergenceSection").
    unfold renderConvergenceChart, try_catch.
    destruct (doc s !! "convergenceSection") as [cs|] eqn:Hcs;
      exec; rewrite Hx; exec; rewrite Hy; exec; rewrite Hbs; exec;
      destruct lib_ok; exec; rewrite ?lookup_insert_eq, ?Hcs;
      intros ?; simplify_eq; simpl;
      rewrite elem_of_difference, elem_of_singleton; tauto.
  - resume_view alerts.
    resume_view (λ s, (convergenceChartInstance s, console s)).
    unfold renderConvergenceChart, try_catch.
    destruct (doc s !! "convergenceSection") as [cs|] eqn:Hcs;
      exec; rewrite Hx; exec; rewrite Hy; exec; rewrite Hbs; exec;
      destruct lib_ok; exec; done.
Qed.

End ResultsShown.

(** ** Stock quotes (lines 79-105) *)

Section Quotes.
Context {Num : Type} `{!JSNumber Num}.
Implicit Types (s : State Num) (v : Val Num) (o : Outcome Num) (ev : Event Num).

(** What a well-formed stock quote does besides filling in spot, strike,
    volatility and yield. *)
Lemma fetchBtn_resume_rest s ticker data price vol rate cur :
  quote_fields_present s → quote_of data price vol →
  get_prop data "risk_free_rate" = inr rate →
  get_prop data "currency" = inr cur →
  let s' := (fetchBtn_resume ticker (Reply true data) s).2 in
  element_view "r" value s' = Some (to_value_string rate)
  ∧ currency_view s'
    = (or_else cur (VStr "$"),
       (λ _, "(" +:+ to_string (or_else cur (VStr "$")) +:+ ")")
       <$> currencyLabels s)
  ∧ (is_Some (doc s !! "volSource") →
     element_view "volSource" textContent s'
     = Some ("Historical Volatility (1Y) for " +:+ ticker))
  ∧ console s' = console s.
Proof.
  intros ([eS0 HS0] & [esig Hsig] & [er Hr] & [eK HK]) [Hp Hv] Hrate Hcur s'.
  unfold s'. clear s'.
  assert (∀ l : list Element,
            textContent <$> (with_textContent
                               ("(" +:+ to_string (or_else cur (VStr "$"))
                                +:+ ")") <$> l)
            = (λ _, "(" +:+ to_string (or_else cur (VStr "$")) +:+ ")") <$> l)
    as Hlabels by (intros l; by rewrite <- list_fmap_compose).
  split; [|split; [|split]].
  - skip_finally (element_view "r" value) by frame_element.
    unfold try_catch. exec. rewrite Hp, Hv, Hrate, Hcur.
    destruct (doc s !! "q") as [eq|] eqn:Hq;
      destruct (doc s !! "volSource") as [evs|] eqn:Hvs;
      exec; solve_view.
  - skip_finally currency_view by frame_field.
    unfold try_catch. exec. rewrite Hp, Hv, Hrate, Hcur.
    destruct (doc s !! "q") as [eq|] eqn:Hq;
      destruct (doc s !! "volSource") as [evs|] eqn:Hvs;
      exec; unfold currency_view; simpl; by rewrite Hlabels.
  - intros [evs Hvs].
    skip_finally (element_view "volSource" textContent) by frame_element.
    unfold try_catch. exec. rewrite Hp, Hv, Hrate, Hcur.
    destruct (doc s !! "q") as [eq|] eqn:Hq; exec; solve_view.
  - skip_finally console by frame_field.
    unfold try_catch. exec. rewrite Hp, Hv, Hrate, Hcur.
    destruct (doc s !! "q") as [eq|] eqn:Hq;
      destruct (doc s !! "volSource") as [evs|] eqn:Hvs;
      exec; done.
Qed.



(** X14.  A quote whose volatility is not a number: the spot is written,
    then [toFixed] throws; no other form value changes, the currency stays,
    a TypeError is logged and the user is told the server cannot be
    reached. *)
Theorem quote_without_volatility s ticker data price vol :
  is_Some (doc s !! "S0") →
  get_prop data "current_price" = inr (VNum price) →
  get_prop data "volatility" = inr vol → toFixed vol 4 = inl TypeError →
  let s' := (fetchBtn_resume ticker (Reply true data) s).2 in
  form_values s' = <["S0" := num_toFixed price 2]> (form_values s)
  ∧ currency_view s' = currency_view s
  ∧ alerts s' = alerts s ++ [VStr "Failed to connect to server"]
  ∧ console s' = console s ++ [TypeError].
Proof.
  intros [eS0 HS0] Hp Hv Hvol s'. unfold s'. clear s'.
  split; [|split; [|split]].
  - skip_finally form_values by frame_values.
    unfold try_catch. exec. rewrite Hp. exec. rewrite Hv. exec.
    rewrite Hvol. exec. unfold form_values. simpl. by rewrite fmap_insert.
  - skip_finally currency_view by frame_field.
    unfold try_catch. exec. rewrite Hp. exec. rewrite Hv. exec.
    rewrite Hvol. exec. done.
  - skip_finally alerts by frame_field.
    unfold try_catch. exec. rewrite Hp. exec. rewrite Hv. exec.
    rewrite Hvol. exec. done.
  - skip_finally console by frame_field.
    unfold try_catch. exec. rewrite Hp. exec. rewrite Hv. exec.
    rewrite Hvol. exec. done.
Qed.

End Quotes.

(** ** Handlers in sequence *)

Section Flows.
Context {Num : Type} `{!JSNumber Num}.
Implicit Types (s : State Num) (v : Val Num) (o : Outcome Num) (ev : Event Num).

(** X15.  The form values, the currency symbol and the currency labels
    change only when the user types, picks a method, or an ok stock quote
    arrives: every other event leaves them as they are. *)
Theorem inputs_change_only_by_user_or_quote ev s :
  (∀ id text, ev ≠ EvInput id text) → (∀ i, ev ≠ EvOptionClick i) →
  (∀ i data lib_ok t,
     ev = EvSettle i (Reply true data) lib_ok →
     pending s !! i ≠ Some (PFetch t)) →
  form_values (handler ev s).2 = form_values s
  ∧ currency_view (handler ev s).2 = currency_view s.
Proof.
  intros Hinput Hoption Hquote.
  destruct ev as [id text| |inside|i| | | |i o lib_ok]; unfold handler.
  - by destruct (Hinput id text).
  - split; [by_stable frame_values|by_stable frame_field].
  - split; [by_stable frame_values|by_stable frame_field].
  - by destruct (Hoption i).
  - split; [by_stable frame_values|by_stable frame_field].
  - split; [by_stable frame_values|by_stable frame_field].
  - split; [by_stable frame_values|by_stable frame_field].
  - destruct (pending s !! i) as [p|] eqn:Hp; [|done].
    set (s0 := set_pending (delete i (pending s)) s).
    change (form_values s) with (form_values s0).
    change (currency_view s) with (currency_view s0).
    destruct p as [ticker| |].
    + destruct o as [|ok|[] data];
        [| |by destruct (Hquote i data lib_ok ticker)|];
        unfold resume, fetchBtn_resume; cbn [await];
        rewrite ?bind_throw_l, ?bind_ret_l; cbn [fst snd];
        (split; [by_stable frame_values|by_stable frame_field]).
    + split; [by_stable frame_values|by_stable frame_field].
    + split; [by_stable frame_values|by_stable frame_field].
Qed.

(** X16.  What the user last typed into a field is what the next simulate
    request carries under that name, and likewise the next convergence
    request (which has no [steps]). *)
Theorem typed_value_is_sent id text s s1 :
  id ∈ ["S0"; "K"; "T"; "r"; "sigma"; "q"; "steps"] →
  step (EvInput id text) s = Some s1 →
  (∀ req s2, paramsForm_submit s1 = (inr req, s2) →
             get_prop (body req) id = inr (VStr text))
  ∧ (∀ req s2, id ≠ "steps" → convergenceBtn_click s1 = (inr req, s2) →
               get_prop (body req) id = inr (VStr text)).
Proof.
  intros Hid Hstep. unfold step in Hstep.
  destruct (enabled (EvInput id text) s) eqn:Hen; [|done].
  injection Hstep as <-.
  apply andb_prop in Hen as [_ Hex]. apply bool_decide_eq_true in Hex as [e He].
  unfold handler. erewrite update_ok by done. cbn [snd].
  assert (∀ d : gmap string Element,
            <[id:=with_value text e]> d !! id = Some (with_value text e))
    as Hnew by (intros; apply lookup_insert_eq).
  split.
  - intros req s2 Hreq. apply paramsForm_submit_request in Hreq
      as (eS0 & eK & eT & er & esigma & esteps
          & HS0 & HK & HT & Hr & Hsigma & Hsteps & ->).
    unfold q_entry. cbn [doc set_doc] in *.
    repeat (apply elem_of_cons in Hid as [->|Hid];
            [rewrite Hnew in *; by simplify_eq|]).
    by apply elem_of_nil in Hid.
  - intros req s2 Hns Hreq. apply convergenceBtn_click_request in Hreq
      as (eS0 & eK & eT & er & esigma & HS0 & HK & HT & Hr & Hsigma & ->).
    unfold q_entry. cbn [doc set_doc] in *.
    repeat (apply elem_of_cons in Hid as [->|Hid];
            [first [ done | rewrite Hnew in *; by simplify_eq ]|]).
    by apply elem_of_nil in Hid.
Qed.

(** X17.  After a click on an option that runs to its end, the next
    simulate or convergence request carries that option's [data-value] as
    its method. *)
Theorem clicked_method_is_sent i s e m :
  customOptions s !! i = Some e → dataset_value e = Some m →
  (customOption_click i s).1 = inr tt →
  (∀ req s2, paramsForm_submit (customOption_click i s).2 = (inr req, s2) →
             get_prop (body req) "method" = inr (VStr m))
  ∧ (∀ req s2, convergenceBtn_click (customOption_click i s).2 = (inr req, s2) →
               get_prop (body req) "method" = inr (VStr m)).
Proof.
  intros He Hm Hok.
  destruct (customOption_click_effect i s)
    as [(_ & _ & Hthrow)|(e' & He' & Hmethod & _)]; [done|].
  assert (e' = e) as -> by congruence.
  rewrite to_value_string_data_value, Hm in Hmethod. simpl in Hmethod.
  assert (selected_method (customOption_click i s).2 = m) as Hsel
    by (by rewrite selected_method_view, Hmethod).
  split; intros req s2 Hreq.
  - apply paramsForm_submit_request in Hreq
      as (eS0 & eK & eT & er & esigma & esteps & _ & _ & _ & _ & _ & _ & ->).
    simpl. by rewrite Hsel.
  - apply convergenceBtn_click_request in Hreq
      as (eS0 & eK & eT & er & esigma & _ & _ & _ & _ & _ & ->).
    simpl. by rewrite Hsel.
Qed.



End Flows.

(** ** The further theorems at work on the sample page *)

Lemma sample_page_result_elements :
  Forall (λ id, is_Some (doc sample_page !! id)) result_elements.
Proof.
  unfold result_elements, result_fields.
  repeat (apply Forall_cons_2; [by eexists|]). apply Forall_nil_2.
Qed.

Lemma sample_result_prices : prices_of sample_result sample_prices.
Proof. do 2 eexists. by repeat split. Qed.

Lemma sample_result_paths : paths_of sample_result sample_steps sample_paths.
Proof. eexists. by repeat split. Qed.

Lemma fetching_page_reachable :
  reachable (JSNumber0 := int_number) sample_page fetching_page.
Proof. apply (run_reachable fetch_events). by vm_compute. Qed.

Lemma trigger_click_twice_restores_witness :
  @enabled Z EvTriggerClick sample_page = true
  ∧ run (JSNumber0 := int_number) [EvTriggerClick; EvTriggerClick] sample_page
    = Some sample_page.
Proof.
  assert (@enabled Z EvTriggerClick sample_page = true) as Hen
    by (by vm_compute).
  split; [exact Hen|].
  exact (trigger_click_twice_restores (JSNumber0 := int_number)
           sample_page Hen).
Defined.

Lemma outside_click_closes_dropdown_witness :
  doc sample_page !! "methodSelectTrigger" = Some (block "" ∅)
  ∧ ("open" ∉ classList (block "" ∅))
  ∧ ∃ s1,
      run (JSNumber0 := int_number) [EvTriggerClick; EvDocumentClick true]
        sample_page = Some s1
      ∧ (∃ t1, doc s1 !! "methodSelectTrigger" = Some t1
               ∧ "open" ∈ classList t1)
      ∧ run (JSNumber0 := int_number) [EvDocumentClick false] s1
        = Some sample_page.
Proof.
  assert (doc sample_page !! "methodSelectTrigger" = Some (block "" ∅))
    as Ht by (by vm_compute).
  assert ("open" ∉ classList (block "" ∅)) as Hclosed
    by (simpl; apply not_elem_of_empty).
  split; [exact Ht|]. split; [exact Hclosed|].
  exact (outside_click_closes_dropdown (JSNumber0 := int_number)
           sample_page (block "" ∅) Ht Hclosed).
Defined.

Lemma option_click_selects_exclusively_witness :
  customOptions sample_page !! 1
  = Some (custom_option "Antithetic Variates" "antithetic")
  ∧ doc sample_page !! "methodSelectTrigger" = Some (block "" ∅)
  ∧ triggerLabel sample_page
    = Some (block "Standard Monte Carlo" {["custom-select__trigger"]})
  ∧ doc sample_page !! "method" = Some (input "standard")
  ∧ textContent
    <$> triggerLabel (customOption_click (JSNumber0 := int_number) 1
                        sample_page).2
    = Some "Antithetic Variates"
  ∧ selected_method (customOption_click (JSNumber0 := int_number) 1
                       sample_page).2
    = "antithetic".
Proof.
  assert (customOptions sample_page !! 1
          = Some (custom_option "Antithetic Variates" "antithetic"))
    as Hopt by reflexivity.
  assert (doc sample_page !! "methodSelectTrigger" = Some (block "" ∅))
    as Ht by (by vm_compute).
  assert (triggerLabel sample_page
          = Some (block "Standard Monte Carlo" {["custom-select__trigger"]}))
    as Hl by reflexivity.
  assert (doc sample_page !! "method" = Some (input "standard"))
    as Hm by (by vm_compute).
  pose proof (option_click_selects_exclusively (JSNumber0 := int_number)
                1 sample_page _ _ _ _ Hopt Ht Hl Hm) as Hclick.
  split; [exact Hopt|]. split; [exact Ht|]. split; [exact Hl|].
  split; [exact Hm|].
  split; [exact (proj1 (proj2 (proj2 (proj2 Hclick))))
         |exact (proj1 (proj2 (proj2 (proj2 (proj2 Hclick)))))].
Defined.

Lemma fetch_click_sends_ticker_witness :
  doc sample_page !! "tickerInput" = Some (input "aapl")
  ∧ doc sample_page !! "fetchBtn" = Some (button "Fetch Data")
  ∧ value (input "aapl") ≠ ""
  ∧ (fetchBtn_click (JSNumber0 := int_number) sample_page).1
    = inr (Some (mkRequest "/api/get-stock-data" "POST" json_headers
                   (VObj [("ticker", VStr "AAPL")])))
  ∧ busy "fetchBtn" "Loading..." (fetchBtn_click (JSNumber0 := int_number) sample_page).2
  ∧ pending (fetchBtn_click (JSNumber0 := int_number) sample_page).2 = [PFetch "AAPL"].
Proof.
  assert (doc sample_page !! "tickerInput" = Some (input "aapl"))
    as He by (by vm_compute).
  assert (doc sample_page !! "fetchBtn" = Some (button "Fetch Data"))
    as Hb by (by vm_compute).
  assert (value (input "aapl") ≠ "") as Hne by done.
  split; [exact He|]. split; [exact Hb|]. split; [exact Hne|].
  exact (fetch_click_sends_ticker (JSNumber0 := int_number)
           sample_page _ _ He Hb Hne).
Defined.

Lemma fetch_click_without_ticker_witness :
  @enabled Z EvFetchClick sample_page_no_ticker = true
  ∧ doc sample_page_no_ticker !! "tickerInput" = Some (input "")
  ∧ value (input "") = ""
  ∧ step (JSNumber0 := int_number) EvFetchClick sample_page_no_ticker
    = Some sample_page_no_ticker
  ∧ (fetchBtn_click (JSNumber0 := int_number) sample_page_no_ticker).1 = inr None.
Proof.
  assert (@enabled Z EvFetchClick sample_page_no_ticker = true) as Hen
    by (by vm_compute).
  assert (doc sample_page_no_ticker !! "tickerInput" = Some (input ""))
    as He by (by vm_compute).
  split; [exact Hen|]. split; [exact He|]. split; [reflexivity|].
  exact (fetch_click_without_ticker (JSNumber0 := int_number)
           sample_page_no_ticker _ Hen He eq_refl).
Defined.

Lemma one_request_at_a_time_witness :
  loaded sample_page
  ∧ reachable (JSNumber0 := int_number) sample_page fetching_page
  ∧ in_flight "fetchBtn" fetching_page = [PFetch "MSFT"]
  ∧ one_request "fetchBtn" fetching_page
  ∧ one_request "convergenceBtn" fetching_page.
Proof.
  split; [exact sample_page_loaded|].
  split; [exact fetching_page_reachable|].
  split; [by vm_compute|].
  exact (one_request_at_a_time (JSNumber0 := int_number)
           sample_page fetching_page
           sample_page_loaded fetching_page_reachable).
Defined.




Lemma prices_change_only_on_simulate_reply_witness :
  @enabled Z (EvSettle 0 (Reply true sample_quote) true) fetching_page = true
  ∧ pending fetching_page !! 0 = Some (PFetch "MSFT")
  ∧ displayed (handler (JSNumber0 := int_number)
                 (EvSettle 0 (Reply true sample_quote) true) fetching_page).2
    = displayed fetching_page
  ∧ chartInstance (handler (JSNumber0 := int_number)
                     (EvSettle 0 (Reply true sample_quote) true)
                     fetching_page).2
    = chartInstance fetching_page.
Proof.
  assert (@enabled Z (EvSettle 0 (Reply true sample_quote) true) fetching_page
          = true) as Hen by (by vm_compute).
  assert (pending fetching_page !! 0 = Some (PFetch "MSFT")) as Hp
    by (by vm_compute).
  split; [exact Hen|]. split; [exact Hp|].
  apply (prices_change_only_on_simulate_reply (JSNumber0 := int_number)
           (EvSettle 0 (Reply true sample_quote) true) fetching_page Hen).
  intros i lib_ok data Heq. injection Heq as <- _ _.
  rewrite Hp. discriminate.
Defined.

Lemma convergence_reply_drawn_witness :
  is_Some (doc sample_page !! "convergenceChart")
  ∧ convergenceChartInstance
      (convergenceBtn_resume (Num := Z)
         (Reply true sample_curve) true sample_page).2
    = Some (mkChart "Convergence Check: Price vs Simulations"
              (VArr [VNum 100%Z; VNum 1000%Z])
              [("Monte Carlo Estimate", VArr [VNum 9%Z; VNum 8%Z]);
               ("Black-Scholes Price", VArr [VNum 8%Z; VNum 8%Z])] false)
  ∧ shown "convergenceSection"
      (convergenceBtn_resume (Num := Z)
         (Reply true sample_curve) true sample_page).2 = true.
Proof.
  assert (is_Some (doc sample_page !! "convergenceChart")) as Hc
    by (by eexists).
  pose proof (convergence_reply_drawn (Num := Z)
                sample_page sample_curve _ _ _ true Hc
                eq_refl eq_refl eq_refl) as Hdrawn.
  split; [exact Hc|].
  split; [|by vm_compute].
  exact (f_equal fst (proj2 (proj2 (proj2 (proj2 Hdrawn))))).
Defined.


Lemma quote_without_volatility_witness :
  is_Some (doc sample_page !! "S0")
  ∧ get_prop sample_quote_no_vol "volatility" = inr VNull
  ∧ toFixed (JSNumber0 := int_number) VNull 4 = inl TypeError
  ∧ form_values
      (fetchBtn_resume (JSNumber0 := int_number) "AAPL"
         (Reply true sample_quote_no_vol) sample_page).2
    = <["S0" := "187.00"]> (form_values sample_page)
  ∧ alerts
      (fetchBtn_resume (JSNumber0 := int_number) "AAPL"
         (Reply true sample_quote_no_vol) sample_page).2
    = [VStr "Failed to connect to server"].
Proof.
  assert (is_Some (doc sample_page !! "S0")) as HS0 by (by eexists).
  pose proof (quote_without_volatility (JSNumber0 := int_number)
                sample_page "AAPL" sample_quote_no_vol 187%Z VNull
                HS0 eq_refl eq_refl eq_refl) as Hpartial.
  split; [exact HS0|]. split; [reflexivity|]. split; [reflexivity|].
  split; [exact (proj1 Hpartial)|exact (proj1 (proj2 (proj2 Hpartial)))].
Defined.

Lemma inputs_change_only_by_user_or_quote_witness :
  pending fetching_page !! 1 = Some PSimulate
  ∧ form_values (handler (JSNumber0 := int_number)
                   (EvSettle 1 (Reply true sample_result) true)
                   fetching_page).2
    = form_values fetching_page
  ∧ currency_view (handler (JSNumber0 := int_number)
                     (EvSettle 1 (Reply true sample_result) true)
                     fetching_page).2
    = currency_view fetching_page.
Proof.
  assert (pending fetching_page !! 1 = Some PSimulate) as Hp
    by (by vm_compute).
  split; [exact Hp|].
  apply (inputs_change_only_by_user_or_quote (JSNumber0 := int_number)
           (EvSettle 1 (Reply true sample_result) true) fetching_page).
  - intros id text. discriminate.
  - intros i. discriminate.
  - intros i data lib_ok t Heq. injection Heq as <- _ _.
    rewrite Hp. discriminate.
Defined.

Lemma typed_value_is_sent_witness :
  "K" ∈ ["S0"; "K"; "T"; "r"; "sigma"; "q"; "steps"]
  ∧ step (JSNumber0 := int_number) (EvInput "K" "110") sample_page
    = Some (handler (JSNumber0 := int_number) (EvInput "K" "110")
              sample_page).2
  ∧ (∀ req s2,
       paramsForm_submit (JSNumber0 := int_number)
         (handler (JSNumber0 := int_number) (EvInput "K" "110")
            sample_page).2 = (inr req, s2) →
       get_prop (body req) "K" = inr (VStr "110"))
  ∧ (∀ req s2, "K" ≠ "steps" →
       convergenceBtn_click (JSNumber0 := int_number)
         (handler (JSNumber0 := int_number) (EvInput "K" "110")
            sample_page).2 = (inr req, s2) →
       get_prop (body req) "K" = inr (VStr "110")).
Proof.
  assert ("K" ∈ ["S0"; "K"; "T"; "r"; "sigma"; "q"; "steps"]) as Hid
    by (apply list_elem_of_further, list_elem_of_here).
  assert (step (JSNumber0 := int_number) (EvInput "K" "110") sample_page
          = Some (handler (JSNumber0 := int_number) (EvInput "K" "110")
                    sample_page).2) as Hstep by (by vm_compute).
  split; [exact Hid|]. split; [exact Hstep|].
  exact (typed_value_is_sent (JSNumber0 := int_number) "K" "110"
           sample_page _ Hid Hstep).
Defined.

Lemma clicked_method_is_sent_witness :
  customOptions sample_page !! 2
  = Some (custom_option "Control Variates" "control_variate")
  ∧ dataset_value (custom_option "Control Variates" "control_variate")
    = Some "control_variate"
  ∧ (customOption_click (JSNumber0 := int_number) 2 sample_page).1 = inr tt
  ∧ (∀ req s2,
       paramsForm_submit (JSNumber0 := int_number)
         (customOption_click (JSNumber0 := int_number) 2 sample_page).2
       = (inr req, s2) →
       get_prop (body req) "method" = inr (VStr "control_variate"))
  ∧ (∀ req s2,
       convergenceBtn_click (JSNumber0 := int_number)
         (customOption_click (JSNumber0 := int_number) 2 sample_page).2
       = (inr req, s2) →
       get_prop (body req) "method" = inr (VStr "control_variate")).
Proof.
  assert (customOptions sample_page !! 2
          = Some (custom_option "Control Variates" "control_variate"))
    as Hopt by reflexivity.
  assert ((customOption_click (JSNumber0 := int_number) 2 sample_page).1
          = inr tt) as Hok by (by vm_compute).
  split; [exact Hopt|]. split; [reflexivity|]. split; [exact Hok|].
  exact (clicked_method_is_sent (JSNumber0 := int_number) 2 sample_page
           _ "control_variate" Hopt eq_refl Hok).
Defined.



(** * Proofs about the pricing core *)

Module CoreFacts.
Import Core.

(** A request passes validation only if every scalar is a finite number
    in its domain. *)
Lemma validate_ok raw p c :
  validate raw = inr (p, c) →
  ∃ vS0 vK vT vr vsigma vsteps vN,
    raw_S0 raw = Finite vS0 ∧ raw_K raw = Finite vK ∧ raw_T raw = Finite vT
    ∧ raw_r raw = Finite vr ∧ raw_sigma raw = Finite vsigma
    ∧ raw_q raw ≠ Unparseable
    ∧ raw_steps raw = Finite vsteps ∧ raw_N raw = Finite vN
    ∧ positive vS0 = true ∧ positive vK = true ∧ positive vT = true
    ∧ non_negative vsigma = true
    ∧ at_least_one vsteps = true ∧ at_least_one vN = true.
Proof.
  unfold validate.
  destruct (raw_S0 raw) as [| |vS0]; simpl; try done.
  destruct (raw_K raw) as [| |vK]; simpl; try done.
  destruct (raw_T raw) as [| |vT]; simpl; try done.
  destruct (raw_r raw) as [| |vr]; simpl; try done.
  destruct (raw_sigma raw) as [| |vsigma]; simpl; try done.
  destruct (raw_q raw) as [| |vq] eqn:Hq; simpl; try done.
  all: destruct (raw_steps raw) as [| |vsteps]; simpl; try done.
  all: destruct (raw_N raw) as [| |vN]; simpl; try done.
  all: destruct (positive vS0 && positive vK && positive vT
                 && non_negative vsigma && at_least_one vsteps
                 && at_least_one vN) eqn:Hc; simpl; try done.
  all: intros _; repeat (apply andb_prop in Hc as [Hc ?]).
  all: exists vS0, vK, vT, vr, vsigma, vsteps, vN; by repeat split.
Qed.

Lemma positive_spec x : positive x = true ↔ ¬ (x <= 0)%Q.
Proof.
  unfold positive. rewrite negb_true_iff, <- Qle_bool_iff.
  by destruct (Qle_bool x 0).
Qed.

Lemma non_negative_spec x : non_negative x = true ↔ ¬ (x < 0)%Q.
Proof.
  unfold non_negative. rewrite Qle_bool_iff. split.
  - intros Hle Hlt. by apply (Qlt_not_le _ _ Hlt).
  - apply Qnot_lt_le.
Qed.

Lemma at_least_one_spec x : at_least_one x = true ↔ ¬ (x < 1)%Q.
Proof.
  unfold at_least_one. rewrite Qle_bool_iff. split.
  - intros Hle Hlt. by apply (Qlt_not_le _ _ Hlt).
  - apply Qnot_lt_le.
Qed.

(** C8.  A request in which S0, K or T is at most 0, sigma is below 0,
    steps or N is below 1, or some scalar does not parse as a finite
    number fails validation with InvalidParameter, and pricing it returns
    the same error instead of a price. *)
Theorem invalid_parameters_rejected policy raw :
  invalid raw →
  validate raw = inl InvalidParameter
  ∧ price policy raw = inl InvalidParameter.
Proof.
  intros Hinv.
  assert (validate raw = inl InvalidParameter) as Hval.
  { destruct (validate raw) as [[]|[p c]] eqn:Hv; [done|]. exfalso.
    apply validate_ok in Hv
      as (vS0 & vK & vT & vr & vsigma & vsteps & vN & HS0 & HK & HT & Hr
          & Hsigma & Hq & Hsteps & HN & H1 & H2 & H3 & H4 & H5 & H6).
    apply positive_spec in H1, H2, H3. apply non_negative_spec in H4.
    apply at_least_one_spec in H5, H6.
    unfold invalid, at_most_zero, below_zero, below_one, scalars in Hinv.
    rewrite HS0, HK, HT, Hr, Hsigma, Hsteps, HN in Hinv.
    destruct Hinv as [(v & [= <-] & ?)|[(v & [= <-] & ?)|[(v & [= <-] & ?)|
      [(v & [= <-] & ?)|[(v & [= <-] & ?)|[(v & [= <-] & ?)|Hin]]]]]];
      try done.
    repeat (apply elem_of_cons in Hin as [Hin|Hin]; [by simplify_eq|]).
    by apply elem_of_nil in Hin. }
  split; [done|]. unfold price. by rewrite Hval.
Qed.

(** The reference scenario passes validation, with q defaulted to 0. *)
Example reference_request_valid :
  validate reference_request
  = inr (mkOptionParameters 100 100 1 (5 # 100) 0 (20 # 100),
         mkSimulationConfig 252 100000).
Proof. reflexivity. Qed.

Lemma invalid_parameters_rejected_witness :
  invalid zero_spot_request
  ∧ validate zero_spot_request = inl InvalidParameter
  ∧ price Reject zero_spot_request = inl InvalidParameter.
Proof.
  assert (invalid zero_spot_request) as Hinv.
  { left. exists 0%Q. split; [reflexivity|]. apply Qle_refl. }
  split; [exact Hinv|].
  exact (invalid_parameters_rejected Reject zero_spot_request Hinv).
Defined.

Local Open Scope R_scope.

Lemma density_even t : density (- t) = density t.
Proof.
  unfold density. by replace (- t * - t) with (t * t) by ring.
Qed.

(** The density has as much mass on [-x, 0] as on [0, x]: both
    [t ↦ ∫ from -x to t] and [t ↦ - ∫ from -x to -t] are antiderivatives of
    the density on [-x, x], so they differ by a constant. *)
Lemma mass_symmetric x :
  0 <= x →
  RiemannInt (density_integrable (- x) 0) = RiemannInt (density_integrable 0 x).
Proof.
  intros Hx.
  assert (- x <= x) as Hle by lra.
  assert (∀ t, - x <= t <= x → continuity_pt density t) as Hcont
    by (intros; apply density_continuous).
  pose (P := primitive Hle (FTC_P1 Hle Hcont)).
  assert (∀ t (pr : Riemann_integrable density (- x) t),
            - x <= t <= x → P t = RiemannInt pr) as HP.
  { intros t pr [H1 H2]. unfold P, primitive.
    destruct (Rle_dec (- x) t) as [?|Hn]; [|contradiction].
    destruct (Rle_dec t x) as [?|Hn]; [|contradiction].
    apply RiemannInt_P5. }
  assert (antiderivative density P (- x) x) as HantiP
    by apply RiemannInt_P29.
  assert (antiderivative density (λ t, - P (- t)) (- x) x) as HantiQ.
  { split; [|assumption]. intros t Ht.
    assert (- x <= - t <= x) as Ht' by lra.
    assert (derivable_pt_lim (λ t, - P (- t)) t (density t)) as Hlim.
    { replace (density t) with (- (density (- t) * -1))
        by (rewrite density_even; ring).
      apply derivable_pt_lim_opp.
      apply (derivable_pt_lim_comp (λ t, - t) P).
      - replace (-1) with (- (1)) by ring.
        apply (derivable_pt_lim_opp id). apply derivable_pt_lim_id.
      - apply (RiemannInt_P28 Hle Hcont). assumption. }
    exists (exist _ (density t) Hlim). symmetry. apply derive_pt_eq_0.
    exact Hlim. }
  destruct (antiderivative_Ucte _ _ _ _ _ HantiP HantiQ) as [c Hc].
  assert (P (- x) = 0) as Hstart.
  { rewrite (HP (- x) (density_integrable (- x) (- x))) by lra.
    apply RiemannInt_P9. }
  pose proof (Hc 0 ltac:(lra)) as H0. simpl in H0. rewrite Ropp_0 in H0.
  pose proof (Hc x ltac:(lra)) as H1. simpl in H1. rewrite Hstart in H1.
  rewrite (HP 0 (density_integrable (- x) 0)) in H0 by lra.
  rewrite (HP x (density_integrable (- x) x)) in H1 by lra.
  pose proof (RiemannInt_P26 (density_integrable (- x) 0)
                (density_integrable 0 x) (density_integrable (- x) x)) as Hsum.
  lra.
Qed.

Lemma mass_reverse a b :
  RiemannInt (density_integrable a b) = - RiemannInt (density_integrable b a).
Proof. apply RiemannInt_P8. Qed.

(** The normal distribution is symmetric about 0. *)
Lemma Phi_symmetry x : Phi (- x) = 1 - Phi x.
Proof.
  unfold Phi. destruct (Rle_dec 0 x) as [Hx|Hx].
  - rewrite (mass_reverse 0 (- x)), mass_symmetric by assumption. lra.
  - pose proof (mass_symmetric (- x) ltac:(lra)) as Hs.
    revert Hs. rewrite Ropp_involutive. intros Hs.
    rewrite (mass_reverse 0 x), Hs. lra.
Qed.

(** C7.  Put-call parity of the analytical solver: for S0, K, T > 0,
    sigma >= 0 and q >= 0 the solver returns prices with
    Call - Put = S0 e^(-qT) - K e^(-rT), exactly over the reals, unless
    sigma = 0 and the policy for the degenerate case is to reject. *)
Theorem put_call_parity policy S0 K T r q sigma :
  0 < S0 → 0 < K → 0 < T → 0 <= sigma → 0 <= q →
  match black_scholes policy S0 K T r q sigma with
  | inr (call, put) => call - put = S0 * exp (- q * T) - K * exp (- r * T)
  | inl _ => policy = Reject ∧ sigma = 0
  end.
Proof.
  intros HS0 HK HT Hsigma Hq. unfold black_scholes.
  destruct (Req_dec_T (sigma * sqrt T) 0) as [Hdeg|Hdeg].
  - assert (sigma = 0) as Hs.
    { apply Rmult_integral in Hdeg as [?|Hsqrt]; [done|].
      apply sqrt_eq_0 in Hsqrt; lra. }
    destruct policy; [done|].
    unfold Rmax.
    destruct (Rle_dec _ _), (Rle_dec _ _); lra.
  - unfold call_price, put_price. rewrite !Phi_symmetry. ring.
Qed.

Lemma put_call_parity_witness :
  0 < 100 ∧ 0 < 1 ∧ 0 <= 20 / 100 ∧ 0 <= 0
  ∧ call_price 100 100 1 (5 / 100) 0 (20 / 100)
    - put_price 100 100 1 (5 / 100) 0 (20 / 100)
    = 100 * exp (- 0 * 1) - 100 * exp (- (5 / 100) * 1).
Proof.
  assert (0 < 100) as H100 by lra.
  assert (0 < 1) as H1 by lra.
  assert (0 <= 20 / 100) as Hsigma by lra.
  assert (0 <= 0) as Hq by lra.
  repeat (split; [assumption|]).
  pose proof (put_call_parity Reject 100 100 1 (5 / 100) 0 (20 / 100)
                H100 H100 H1 Hsigma Hq) as Hparity.
  unfold black_scholes in Hparity.
  destruct (Req_dec_T (20 / 100 * sqrt 1) 0) as [Hdeg|Hdeg].
  - destruct Hparity as [_ Hzero]. lra.
  - exact Hparity.
Defined.

End CoreFacts.
